(** * Airtable client: a model of [airtable/airtable.py]

    The client formats HTTP requests against the remote REST service and
    decodes its JSON answers.  The model keeps the code's shape:

    - JSON values and keyword-argument dictionaries are association lists
      in insertion order, as Python dictionaries are;
    - a call that may raise returns a [result];
    - a call that talks to the service or sleeps runs in the monad [M],
      which threads the state of the remote service and the trace of the
      requests issued and the pauses taken;
    - the generator of [get_iter_in_table] is an explicit state machine.

    What the module imports from elsewhere (the interpreter, [urllib], the
    [params] module, the remote service) is an interface. *)

From Stdlib Require Import ZArith QArith Lia Lqa Ascii DecimalString.
From stdpp Require Import base list strings sorting.

(** ** Values *)

(** What [json.loads] produces, and what keyword arguments carry. *)
#[warnings="-register-all"]
Inductive json : Type :=
| JNull
| JBool (b : bool)
| JInt (z : Z)
| JFloat (q : Q)
| JStr (s : string)
| JList (l : list json)
| JDict (d : list (string * json)).

(** A Python [dict] with string keys: insertion order, one entry per key. *)
Abbreviation dict := (list (string * json)).

Inductive exn : Type :=
| UnknownParameterError (name : string)
| ValidationError (msg : string)
| HTTPError (msg : string)
| JSONDecodeError
| TypeError (msg : string)
| KeyError (key : string)
| AttributeError (obj attr : string)
| ValueError (msg : string)
| ConnectionError (msg : string).

(** The result of a call that may raise. *)
Inductive result (A : Type) : Type :=
| Ok (a : A)
| Raise (e : exn).
Arguments Ok {A} a.
Arguments Raise {A} e.

#[export] Instance result_ret : MRet result := @Ok.
#[export] Instance result_bind : MBind result := λ A B k m,
  match m with
  | Ok a => k a
  | Raise e => Raise e
  end.
#[export] Instance result_fmap : FMap result := λ A B f m,
  match m with
  | Ok a => Ok (f a)
  | Raise e => Raise e
  end.

(** [bool(v)] *)
Definition py_bool (v : json) : bool :=
  match v with
  | JNull => false
  | JBool b => b
  | JInt z => negb (z =? 0)%Z
  | JFloat q => negb (Qeq_bool q 0)
  | JStr s => negb (String.eqb s "")
  | JList l => match l with [] => false | _ => true end
  | JDict d => match d with [] => false | _ => true end
  end.

(** ** Dictionaries *)

Definition keys (d : dict) : list string := d.*1.

Fixpoint dict_get (k : string) (d : dict) : option json :=
  match d with
  | [] => None
  | (k', v) :: d' => if decide (k = k') then Some v else dict_get k d'
  end.

(** [d[k] = v]: an existing key keeps its place, a new one goes last. *)
Fixpoint dict_set (k : string) (v : json) (d : dict) : dict :=
  match d with
  | [] => [(k, v)]
  | (k', v') :: d' =>
      if decide (k = k') then (k, v) :: d' else (k', v') :: dict_set k v d'
  end.

(** [d.update(other)] *)
Definition dict_update (d other : dict) : dict :=
  foldl (λ acc kv, dict_set kv.1 kv.2 acc) d other.

(** [d.get(k, default)] *)
Definition dict_get_default (k : string) (default : json) (d : dict) : json :=
  match dict_get k d with Some v => v | None => default end.

(** [sorted(params.items())]: keys are pairwise different, so the tuple
    order is the order of the names. *)
Definition name_le (a b : string * json) : Prop := String.le a.1 b.1.

#[export] Instance name_le_dec : RelDecision name_le.
Proof. intros a b. unfold name_le. apply _. Defined.

Definition sorted_items (params : dict) : dict := merge_sort name_le params.

(** ** The [params] module *)

(** The option names of the query interface. *)
Inductive option_name : Type :=
| o_max_records | o_view | o_page_size | o_fields | o_sort | o_formula
| o_offset.

Definition kwarg (o : option_name) : string :=
  match o with
  | o_max_records => "max_records"
  | o_view => "view"
  | o_page_size => "page_size"
  | o_fields => "fields"
  | o_sort => "sort"
  | o_formula => "formula"
  | o_offset => "offset"
  end.

Definition vocabulary : list option_name :=
  [o_max_records; o_view; o_page_size; o_fields; o_sort; o_formula;
   o_offset].

Definition option_of_kwarg (name : string) : option option_name :=
  list_find (λ o, kwarg o = name) vocabulary ≫= λ p, Some p.2.

(** What [airtable.py] uses of [params.py]: for each option the class
    whose instance validates a value and gives its wire parameters with
    [to_param_dict], and the formula builder of the formula class. *)
Class ParamsModule : Type := {
  param_class : option_name → json → result dict;
  from_name_and_value : string → json → string
}.

(** Modelled from the spec: [AirtableParams._get] of [params.py], which is
    not part of the sources.  A name of the vocabulary gives its class; any
    other name fails with [UnknownParameterError]. *)
Definition AirtableParams_get `{ParamsModule} (param_name : string)
  : result (json → result dict) :=
  match option_of_kwarg param_name with
  | Some o => Ok (param_class o)
  | None => Raise (UnknownParameterError param_name)
  end.

(** ** [AirtableBase._process_params] *)

Fixpoint _process_params_loop `{ParamsModule}
  (params items new_params : dict) : result dict :=
  match items with
  | [] => Ok new_params
  | (param_name, _) :: rest =>
      param_value ← match dict_get param_name params with
                    | Some v => Ok v
                    | None => Raise (KeyError param_name)
                    end;
      params_class ← AirtableParams_get param_name;
      d ← params_class param_value;
      _process_params_loop params rest (dict_update new_params d)
  end.

Definition _process_params `{ParamsModule} (params : dict) : result dict :=
  _process_params_loop params (sorted_items params) [].

(** ** Strings *)

(** [sub in s] *)
Fixpoint substr_in (sub s : string) : bool :=
  String.prefix sub s ||
  match s with
  | "" => false
  | String _ s' => substr_in sub s'
  end.

(** [s.replace(old, new)] for a non-empty [old]: scan from the left, and
    after a match skip the rest of the matched text. *)
Fixpoint replace_from (old new : string) (skip : nat) (s : string) : string :=
  match s with
  | "" => ""
  | String c s' =>
      match skip with
      | S k => replace_from old new k s'
      | O =>
          if String.prefix old s
          then new +:+ replace_from old new (String.length old - 1) s'
          else String c (replace_from old new 0 s')
      end
  end.

(** [s.replace("", new)] puts [new] before every character and at the end. *)
Fixpoint replace_empty (new s : string) : string :=
  match s with
  | "" => new
  | String c s' => new +:+ String c (replace_empty new s')
  end.

Definition py_replace (s old new : string) : string :=
  match old with
  | "" => replace_empty new s
  | _ => replace_from old new 0 s
  end.

Definition startswith (s pre : string) : bool := String.prefix pre s.

Fixpoint endswith_char (s : string) (c : ascii) : bool :=
  match s with
  | "" => false
  | String a "" => Ascii.eqb a c
  | String _ s' => endswith_char s' c
  end.

Definition str_of_Z (z : Z) : string := NilZero.string_of_int (Z.to_int z).

(** [posixpath.join(path, b)] *)
Definition posixpath_join (path b : string) : string :=
  if startswith b "/" then b
  else if String.eqb path "" || endswith_char path "/"%char then path +:+ b
  else path +:+ "/" +:+ b.

(** ** The interpreter and [urllib] *)

Class Platform : Type := {
  (** [sys.implementation.name == "ironpython"] *)
  IS_IPY : bool;
  (** [quote(s, safe="")] *)
  quote : string → string;
  unquote : string → string;
  (** [repr] of a value that is not a string *)
  repr : json → string
}.

(** ["{}".format(v)] *)
Definition format_value `{Platform} (v : json) : string :=
  match v with
  | JStr s => s
  | _ => repr v
  end.

(** ** Requests and responses *)

Record request : Type := {
  rq_method : string;
  rq_url : string;
  rq_params : option dict;
  rq_json : option json
}.

(** [body] is [None] when the content is not JSON. *)
Record response : Type := {
  status_code : Z;
  reason : string;
  url : string;
  body : option json
}.

(** [response.raise_for_status()] of the [requests] library. *)
Definition raise_for_status (r : response) : result unit :=
  if (400 <=? status_code r)%Z && (status_code r <? 500)%Z then
    Raise (HTTPError (str_of_Z (status_code r) +:+ " Client Error: " +:+
                      reason r +:+ " for url: " +:+ url r))
  else if (500 <=? status_code r)%Z && (status_code r <? 600)%Z then
    Raise (HTTPError (str_of_Z (status_code r) +:+ " Server Error: " +:+
                      reason r +:+ " for url: " +:+ url r))
  else Ok ().

(** [response.json()] *)
Definition response_json (r : response) : result json :=
  match body r with
  | Some j => Ok j
  | None => Raise JSONDecodeError
  end.

(** ["error" in error_dict], for whatever JSON value the body holds. *)
Definition contains_error_key (error_dict : json) : result bool :=
  match error_dict with
  | JDict d => Ok (bool_decide (is_Some (dict_get "error" d)))
  | JList l =>
      Ok (existsb (λ v, match v with JStr s => String.eqb s "error"
                         | _ => false end) l)
  | JStr s => Ok (substr_in "error" s)
  | _ => Raise (TypeError "argument is not iterable")
  end.

(** [obj[key]] for a string key *)
Definition py_getitem (obj : json) (key : string) : result json :=
  match obj with
  | JDict d =>
      match dict_get key d with
      | Some v => Ok v
      | None => Raise (KeyError key)
      end
  | JList _ => Raise (TypeError "list indices must be integers or slices, not str")
  | JStr _ => Raise (TypeError "string indices must be integers")
  | _ => Raise (TypeError "object is not subscriptable")
  end.

(** [obj.get(key, default)] *)
Definition py_get (obj : json) (key : string) (default : json) : result json :=
  match obj with
  | JDict d => Ok (dict_get_default key default d)
  | _ => Raise (AttributeError "object" "get")
  end.

(** Iterating a value, as [list.extend] does. *)
Fixpoint chars (s : string) : list json :=
  match s with
  | "" => []
  | String c s' => JStr (String c "") :: chars s'
  end.

Definition py_iter (v : json) : result (list json) :=
  match v with
  | JList l => Ok l
  | JDict d => Ok (JStr <$> keys d)
  | JStr s => Ok (chars s)
  | _ => Raise (TypeError "object is not iterable")
  end.

(** The message built in the [except] branch of [_process_response]. *)
Definition error_message `{Platform} (r : response) (err_msg : string)
  : result string :=
  let err_msg :=
    if negb IS_IPY && (status_code r =? 422)%Z
    then py_replace err_msg (url r) (unquote (url r)) +:+ " (Decoded URL)"
    else err_msg in
  match response_json r with
  | Raise JSONDecodeError => Ok err_msg
  | Raise e => Raise e
  | Ok error_dict =>
      has_error ← contains_error_key error_dict;
      if has_error : bool then
        detail ← py_getitem error_dict "error";
        Ok (err_msg +:+ " [Error: " +:+ format_value detail +:+ "]")
      else Ok err_msg
  end.

(** [AirtableBase._process_response] *)
Definition _process_response `{Platform} (r : response) : result json :=
  match raise_for_status r with
  | Raise (HTTPError err_msg) =>
      err_msg ← error_message r err_msg;
      Raise (HTTPError err_msg)
  | Raise e => Raise e
  | Ok _ => response_json r
  end.

(** ** The remote service and the effects of a call *)

(** [session.request]: the service answers a request, or the transport
    raises; its state changes either way. *)
Class Remote : Type := {
  server : Type;
  session_request : server → request → result response * server
}.

(** What a call leaves behind: the requests sent and the pauses taken, the
    oldest first. *)
Inductive event : Type :=
| Request (rq : request)
| Sleep (secs : Q).

Record world `{Remote} : Type := {
  remote : server;
  trace : list event
}.

(** A call with effects: from a world to the result and the world it
    leaves, or to nothing when the model stopped following a loop. *)
Definition M `{Remote} (A : Type) : Type := world → option (result A * world).

#[export] Instance M_ret `{Remote} : MRet M := λ A a w, Some (Ok a, w).
#[export] Instance M_bind `{Remote} : MBind M := λ A B k m w,
  match m w with
  | Some (Ok a, w') => k a w'
  | Some (Raise e, w') => Some (Raise e, w')
  | None => None
  end.

Definition lift `{Remote} {A} (o : result A) : M A := λ w, Some (o, w).

Definition raise `{Remote} {A} (e : exn) : M A := lift (Raise e).

Definition out_of_fuel `{Remote} {A} : M A := λ _, None.

Definition send `{Remote} (rq : request) : M response := λ w,
  let '(r, s) := session_request (remote w) rq in
  Some (r, {| remote := s; trace := trace w ++ [Request rq] |}).

(** [time.sleep(secs)] *)
Definition sleep `{Remote} (secs : Q) : M unit := λ w,
  if Qle_bool 0 secs
  then Some (Ok (), {| remote := remote w; trace := trace w ++ [Sleep secs] |})
  else Some (Raise (ValueError "sleep length must be non-negative"), w).

(** ** The client object *)

Inductive pyclass : Type := AirtableBase_cls | Airtable_cls.

(** [self]: its class, and the attributes the methods read.  [table_name]
    is set by [Airtable.__init__] only, and only the methods of [Airtable]
    read it. *)
Record client : Type := {
  cls : pyclass;
  base_url : string;
  table_name : string;
  API_LIMIT : Q
}.

Definition VERSION : string := "v0".
Definition API_BASE_URL : string := "https://api.airtable.com/".
Definition API_URL : string := posixpath_join API_BASE_URL VERSION.
Definition DEFAULT_API_LIMIT : Q := 1 # 5.

Definition AirtableBase_init (base_key : string) : client :=
  {| cls := AirtableBase_cls;
     base_url := posixpath_join API_URL base_key;
     table_name := "";
     API_LIMIT := DEFAULT_API_LIMIT |}.

Definition Airtable_init (base_key table_name : string) : client :=
  {| cls := Airtable_cls;
     base_url := posixpath_join API_URL base_key;
     table_name := table_name;
     API_LIMIT := DEFAULT_API_LIMIT |}.

(** ** [AirtableBase] *)

Section AirtableBase.
Context `{Platform, ParamsModule, Remote}.

(** [posixpath.join(self.base_url, quote(table_name, safe=""))] *)
Definition table_url (self : client) (table_name : string) : string :=
  posixpath_join (base_url self) (quote table_name).

(** A record id is whatever the caller or a record's ["id"] entry holds;
    [posixpath.join] accepts a string only. *)
Definition record_table_url (self : client) (table_name : string)
  (record_id : json) : result string :=
  match record_id with
  | JStr s => Ok (posixpath_join (table_url self table_name) s)
  | _ => Raise (TypeError "expected str, bytes or os.PathLike object")
  end.

Definition _request (method url : string) (params : option dict)
  (json_data : option json) : M json :=
  response ← send {| rq_method := method; rq_url := url;
                     rq_params := params; rq_json := json_data |};
  lift (_process_response response).

Definition _get (url : string) (params : dict) : M json :=
  processed_params ← lift (_process_params params);
  _request "get" url (Some processed_params) None.

Definition _post (url : string) (json_data : json) : M json :=
  _request "post" url None (Some json_data).

Definition _put (url : string) (json_data : json) : M json :=
  _request "put" url None (Some json_data).

Definition _patch (url : string) (json_data : json) : M json :=
  _request "patch" url None (Some json_data).

Definition _delete (url : string) : M json :=
  _request "delete" url None None.

Definition get_in_table (self : client) (table_name : string)
  (record_id : json) : M json :=
  url ← lift (record_table_url self table_name record_id);
  _get url [].

(** [self._get(url, offset=offset, **options)]: a second [offset] among
    the options is a [TypeError] of the call. *)
Definition _get_page (url : string) (offset : json) (options : dict) : M json :=
  if bool_decide ("offset" ∈ keys options)
  then raise (TypeError "got multiple values for keyword argument 'offset'")
  else _get url (("offset", offset) :: options).

(** The generator of [get_iter_in_table]: not started, suspended at its
    [yield] with the page data it holds, or finished. *)
Inductive generator : Type :=
| gen_created
| gen_suspended (data : json)
| gen_finished.

(** One turn of the loop body, up to the [yield]. *)
Definition fetch_page (self : client) (table_name : string) (options : dict)
  (offset : json) : M (option json * generator) :=
  data ← _get_page (table_url self table_name) offset options;
  records ← lift (py_get data "records" (JList []));
  _ ← sleep (API_LIMIT self);
  mret (Some records, gen_suspended data).

(** [next(it)] for [it = self.get_iter_in_table(table_name, **options)]:
    the page yielded, or [None] when the generator returns. *)
Definition get_iter_in_table (self : client) (table_name : string)
  (options : dict) (it : generator) : M (option json * generator) :=
  match it with
  | gen_created => fetch_page self table_name options JNull
  | gen_suspended data =>
      offset ← lift (py_get data "offset" JNull);
      if py_bool offset
      then fetch_page self table_name options offset
      else mret (None, gen_finished)
  | gen_finished => mret (None, gen_finished)
  end.

(** [for page in self.get_iter_in_table(...)]: the pages, in order. *)
Fixpoint iterate (fuel : nat) (self : client) (table_name : string)
  (options : dict) (it : generator) (pages : list json) : M (list json) :=
  match fuel with
  | O => out_of_fuel
  | S fuel' =>
      step ← get_iter_in_table self table_name options it;
      match step.1 with
      | None => mret pages
      | Some page =>
          iterate fuel' self table_name options step.2 (pages ++ [page])
      end
  end.

Fixpoint get_all_loop (fuel : nat) (self : client) (table_name : string)
  (options : dict) (it : generator) (all_records : list json)
  : M (list json) :=
  match fuel with
  | O => out_of_fuel
  | S fuel' =>
      step ← get_iter_in_table self table_name options it;
      match step.1 with
      | None => mret all_records
      | Some records =>
          items ← lift (py_iter records);
          get_all_loop fuel' self table_name options step.2
            (all_records ++ items)
      end
  end.

Definition get_all_in_table (fuel : nat) (self : client)
  (table_name : string) (options : dict) : M (list json) :=
  get_all_loop fuel self table_name options gen_created [].

Definition match_in_table (fuel : nat) (self : client) (table_name : string)
  (field_name : string) (field_value : json) (options : dict) : M json :=
  let formula := from_name_and_value field_name field_value in
  let options := dict_set "formula" (JStr formula) options in
  records ← get_all_in_table fuel self table_name options;
  match records with
  | record :: _ => mret record
  | [] => mret (JDict [])
  end.

Definition search_in_table (fuel : nat) (self : client) (table_name : string)
  (field_name : string) (field_value : json) (options : dict)
  : M (list json) :=
  let formula := from_name_and_value field_name field_value in
  let options := dict_set "formula" (JStr formula) options in
  get_all_in_table fuel self table_name options.

(** [{"fields": fields, "typecast": typecast}] *)
Definition write_payload (fields : json) (typecast : bool) : json :=
  JDict [("fields", fields); ("typecast", JBool typecast)].

Definition insert_in_table (self : client) (table_name : string)
  (fields : json) (typecast : bool) : M json :=
  _post (table_url self table_name) (write_payload fields typecast).

Fixpoint _batch_request {A} (self : client) (func : A → M json)
  (iterable : list A) : M (list json) :=
  match iterable with
  | [] => mret []
  | item :: rest =>
      r ← func item;
      _ ← sleep (API_LIMIT self);
      responses ← _batch_request self func rest;
      mret (r :: responses)
  end.

Definition batch_insert_in_table (self : client) (table_name : string)
  (records : list json) (typecast : bool) : M (list json) :=
  _batch_request self (λ fields, insert_in_table self table_name fields typecast)
    records.

Definition update_in_table (self : client) (table_name : string)
  (record_id fields : json) (typecast : bool) : M json :=
  url ← lift (record_table_url self table_name record_id);
  _patch url (write_payload fields typecast).

(** [self.update(table_name, record["id"], fields, typecast)]: the only
    [update] of the module is [Airtable.update(self, record_id, fields,
    typecast=False)].  The attribute is looked up first, then the
    arguments are evaluated, then the call binds them. *)
Definition self_update_4 (self : client) (record : json) : M json :=
  match cls self with
  | AirtableBase_cls => raise (AttributeError "AirtableBase" "update")
  | Airtable_cls =>
      _ ← lift (py_getitem record "id");
      raise (TypeError
        "update() takes from 3 to 4 positional arguments but 5 were given")
  end.

Definition update_by_field_in_table (fuel : nat) (self : client)
  (table_name field_name : string) (field_value fields : json)
  (typecast : bool) (options : dict) : M json :=
  record ← match_in_table fuel self table_name field_name field_value options;
  if negb (py_bool record) then mret (JDict [])
  else self_update_4 self record.

Definition replace_in_table (self : client) (table_name : string)
  (record_id fields : json) (typecast : bool) : M json :=
  record_url ← lift (record_table_url self table_name record_id);
  _put record_url (write_payload fields typecast).

Definition replace_by_field_in_table (fuel : nat) (self : client)
  (table_name field_name : string) (field_value fields : json)
  (typecast : bool) (options : dict) : M json :=
  record ← match_in_table fuel self table_name field_name field_value options;
  if negb (py_bool record) then mret (JDict [])
  else
    record_id ← lift (py_getitem record "id");
    replace_in_table self table_name record_id fields typecast.

Definition delete_in_table (self : client) (table_name : string)
  (record_id : json) : M json :=
  record_url ← lift (record_table_url self table_name record_id);
  _delete record_url.

Definition delete_by_field_in_table (fuel : nat) (self : client)
  (table_name field_name : string) (field_value : json) (options : dict)
  : M json :=
  record ← match_in_table fuel self table_name field_name field_value options;
  record_id ← lift (py_getitem record "id");
  record_url ← lift (record_table_url self table_name record_id);
  _delete record_url.

(** [AirtableBase.batch_delete(self, table_name, record_ids)] *)
Definition batch_delete (self : client) (table_name : string)
  (record_ids : list json) : M (list json) :=
  _batch_request self (delete_in_table self table_name) record_ids.

(** [self.get_all(table_name, **options)]: the only [get_all] of the
    module is [Airtable.get_all(self, **options)]. *)
Definition self_get_all_1 (self : client) : M (list json) :=
  match cls self with
  | AirtableBase_cls => raise (AttributeError "AirtableBase" "get_all")
  | Airtable_cls =>
      raise (TypeError
        "get_all() takes 1 positional argument but 2 were given")
  end.

(** [self.batch_delete_in_table]: no class of the module defines it. *)
Definition self_batch_delete_in_table (self : client) : M (list json) :=
  match cls self with
  | AirtableBase_cls =>
      raise (AttributeError "AirtableBase" "batch_delete_in_table")
  | Airtable_cls => raise (AttributeError "Airtable" "batch_delete_in_table")
  end.

Definition mirror_in_table (self : client) (table_name : string)
  (records : list json) (options : dict) : M (list json * list json) :=
  all_records ← self_get_all_1 self;
  all_record_ids ← lift (mapM (λ r, py_getitem r "id") all_records);
  deleted_records ← self_batch_delete_in_table self;
  new_records ← batch_insert_in_table self table_name records false;
  mret (new_records, deleted_records).

End AirtableBase.

(** ** [Airtable], the client of one table *)

Module Airtable.
Section Airtable.
Context `{Platform, ParamsModule, Remote}.

Definition get (self : client) (record_id : json) : M json :=
  get_in_table self (table_name self) record_id.

Definition get_iter (self : client) (options : dict) (it : generator)
  : M (option json * generator) :=
  get_iter_in_table self (table_name self) options it.

Definition get_all (fuel : nat) (self : client) (options : dict)
  : M (list json) :=
  get_all_in_table fuel self (table_name self) options.

Definition match_ (fuel : nat) (self : client) (field_name : string)
  (field_value : json) (options : dict) : M json :=
  match_in_table fuel self (table_name self) field_name field_value options.

Definition search (fuel : nat) (self : client) (field_name : string)
  (field_value : json) (options : dict) : M (list json) :=
  search_in_table fuel self (table_name self) field_name field_value options.

Definition insert (self : client) (fields : json) (typecast : bool) : M json :=
  insert_in_table self (table_name self) fields typecast.

Definition batch_insert (self : client) (records : list json)
  (typecast : bool) : M (list json) :=
  batch_insert_in_table self (table_name self) records typecast.

Definition update (self : client) (record_id fields : json)
  (typecast : bool) : M json :=
  update_in_table self (table_name self) record_id fields typecast.

Definition update_by_field (fuel : nat) (self : client) (field_name : string)
  (field_value fields : json) (typecast : bool) (options : dict) : M json :=
  update_by_field_in_table fuel self (table_name self) field_name field_value
    fields typecast options.

Definition replace (self : client) (record_id fields : json)
  (typecast : bool) : M json :=
  replace_in_table self (table_name self) record_id fields typecast.

Definition replace_by_field (fuel : nat) (self : client) (field_name : string)
  (field_value fields : json) (typecast : bool) (options : dict) : M json :=
  replace_by_field_in_table fuel self (table_name self) field_name field_value
    fields typecast options.

Definition delete (self : client) (record_id : json) : M json :=
  delete_in_table self (table_name self) record_id.

Definition delete_by_field (fuel : nat) (self : client) (field_name : string)
  (field_value : json) (options : dict) : M json :=
  delete_by_field_in_table fuel self (table_name self) field_name field_value
    options.

(** [self.batch_delete_in_table(self.table_name, record_ids)] *)
Definition batch_delete (self : client) (record_ids : list json)
  : M (list json) :=
  self_batch_delete_in_table self.

Definition mirror (self : client) (records : list json) (options : dict)
  : M (list json * list json) :=
  mirror_in_table self (table_name self) records options.

End Airtable.
End Airtable.

(** ** Observations on a trace *)

Definition requests (tr : list event) : list request :=
  omap (λ ev, match ev with Request rq => Some rq | Sleep _ => None end) tr.

(** The time slept between consecutive requests of a trace: a lower bound
    of the time that passes between them.  [since] is the time slept since
    the last request, if there was one. *)
Fixpoint gaps_from (since : option Q) (tr : list event) : list Q :=
  match tr with
  | [] => []
  | Sleep secs :: tr' => gaps_from (Qplus secs <$> since) tr'
  | Request _ :: tr' =>
      match since with
      | Some gap => gap :: gaps_from (Some 0%Q) tr'
      | None => gaps_from (Some 0%Q) tr'
      end
  end.

Definition gaps (tr : list event) : list Q := gaps_from None tr.

(** Every two consecutive requests are [secs] seconds apart or more. *)
Definition paced (secs : Q) (tr : list event) : Prop :=
  Forall (λ gap, (secs <= gap)%Q) (gaps tr).

(** ** Services that answer *)

(** A response that [raise_for_status] lets through, with JSON content. *)
Definition accepted (r : response) (data : json) : Prop :=
  ((status_code r < 400)%Z ∨ (600 <= status_code r)%Z) ∧ body r = Some data.

Definition get_request (url : string) (params : dict) : request :=
  {| rq_method := "get"; rq_url := url; rq_params := Some params;
     rq_json := None |}.

Definition post_request (url : string) (json_data : json) : request :=
  {| rq_method := "post"; rq_url := url; rq_params := None;
     rq_json := Some json_data |}.

Definition delete_request (url : string) : request :=
  {| rq_method := "delete"; rq_url := url; rq_params := None;
     rq_json := None |}.

(** From state [s] the service answers the requests [rqs], in this order,
    with accepted responses whose contents are [datas]. *)
Inductive answers `{Remote} : server → list request → list json → server → Prop :=
| answers_nil s : answers s [] [] s
| answers_cons s rq r s' data rqs datas s'' :
    session_request s rq = (Ok r, s') →
    accepted r data →
    answers s' rqs datas s'' →
    answers s (rq :: rqs) (data :: datas) s''.

(** The request of the pagination iterator that carries [offset]. *)
Definition page_request `{Platform, ParamsModule} (self : client)
  (table_name : string) (options : dict) (offset : json) : result request :=
  get_request (table_url self table_name) <$>
    _process_params (("offset", offset) :: options).

(** What one turn of the iterator leaves on the trace. *)
Definition page_events `{Platform, ParamsModule} (self : client)
  (table_name : string) (options : dict) (offset : json) : list event :=
  match page_request self table_name options offset with
  | Ok rq => [Request rq; Sleep (API_LIMIT self)]
  | Raise _ => []
  end.

(** The service answers the iterator's request for [offset] with a page of
    [records]; [cursor] is what the content holds under ["offset"]. *)
Definition serves_page `{Platform, ParamsModule, Remote} (self : client)
  (table_name : string) (options : dict) (s : server) (offset : json)
  (records : list json) (cursor : option json) (s' : server) : Prop :=
  ∃ rq r d,
    page_request self table_name options offset = Ok rq ∧
    session_request s rq = (Ok r, s') ∧
    accepted r (JDict d) ∧
    dict_get_default "records" (JList []) d = JList records ∧
    dict_get "offset" d = cursor.

(** A simulated table of N pages: asked with [offset], the service gives
    the pages [pages] one by one, each but the last with the cursor of the
    next one ([cursors], N-1 of them, none empty), and the last with no
    cursor. *)
Inductive paged `{Platform, ParamsModule, Remote} (self : client)
  (table_name : string) (options : dict)
  : server → json → list (list json) → list json → server → Prop :=
| paged_last s offset records s' :
    serves_page self table_name options s offset records None s' →
    paged self table_name options s offset [records] [] s'
| paged_more s offset records cursor s' pages cursors s'' :
    serves_page self table_name options s offset records (Some cursor) s' →
    py_bool cursor = true →
    paged self table_name options s' cursor pages cursors s'' →
    paged self table_name options s offset (records :: pages)
      (cursor :: cursors) s''.

(** The world after calls that left [evs] on the trace and the service in
    state [s]. *)
Definition after `{Remote} (w : world) (s : server) (evs : list event)
  : world :=
  {| remote := s; trace := trace w ++ evs |}.

(** ** Instances for the examples *)

Definition hex_value (c : ascii) : option N :=
  let n := N_of_ascii c in
  if (48 <=? n)%N && (n <=? 57)%N then Some (n - 48)%N
  else if (65 <=? n)%N && (n <=? 70)%N then Some (n - 55)%N
  else if (97 <=? n)%N && (n <=? 102)%N then Some (n - 87)%N
  else None.

Definition hex_digit (n : N) : ascii :=
  if (n <? 10)%N then ascii_of_N (48 + n) else ascii_of_N (55 + n).

(** [unquote] on the bytes of a string: [%XX] gives the byte [XX]. *)
Fixpoint percent_decode (s : string) : string :=
  match s with
  | "" => ""
  | String c t =>
      if Ascii.eqb c "%" then
        match t with
        | String a (String b s') =>
            match hex_value a, hex_value b with
            | Some x, Some y =>
                String (ascii_of_N (16 * x + y)) (percent_decode s')
            | _, _ => String c (percent_decode t)
            end
        | _ => String c (percent_decode t)
        end
      else String c (percent_decode t)
  end.

Definition unreserved (c : ascii) : bool :=
  let n := N_of_ascii c in
  ((48 <=? n)%N && (n <=? 57)%N) || ((65 <=? n)%N && (n <=? 90)%N) ||
  ((97 <=? n)%N && (n <=? 122)%N) ||
  existsb (Ascii.eqb c) ["_"; "."; "-"; "~"]%char.

(** [quote(s, safe="")] on the bytes of a string. *)
Fixpoint percent_encode (s : string) : string :=
  match s with
  | "" => ""
  | String c t =>
      if unreserved c then String c (percent_encode t)
      else
        let n := N_of_ascii c in
        String "%" (String (hex_digit (n / 16)) (String (hex_digit (n mod 16))
          (percent_encode t)))
  end.

(** [repr] of the JSON atoms; a string is quoted without escapes, and a
    float prints as the quotient it stands for. *)
Fixpoint py_repr (v : json) : string :=
  match v with
  | JNull => "None"
  | JBool true => "True"
  | JBool false => "False"
  | JInt z => str_of_Z z
  | JFloat q => str_of_Z (Qnum q) +:+ "/" +:+ str_of_Z (Z.pos (Qden q))
  | JStr s => "'" +:+ s +:+ "'"
  | JList l => "[" +:+ String.concat ", " (map py_repr l) +:+ "]"
  | JDict d =>
      "{" +:+ String.concat ", "
        (map (λ kv, "'" +:+ kv.1 +:+ "': " +:+ py_repr kv.2) d) +:+ "}"
  end.

Definition cpython : Platform :=
  {| IS_IPY := false; quote := percent_encode; unquote := percent_decode;
     repr := py_repr |}.

Definition ironpython : Platform :=
  {| IS_IPY := true; quote := percent_encode; unquote := percent_decode;
     repr := py_repr |}.

(** The wire parameters of [sort]: for the entry at [index], its field and
    its direction, descending when the entry starts with [-]. *)
Fixpoint sort_params (index : nat) (entries : list json) : result dict :=
  match entries with
  | [] => Ok []
  | JStr s :: rest =>
      let '(field, direction) :=
        match s with
        | String "-" field => (field, "desc")
        | _ => (s, "asc")
        end in
      let i := str_of_Z (Z.of_nat index) in
      more ← sort_params (S index) rest;
      Ok (("sort[" +:+ i +:+ "][field]", JStr field) ::
          ("sort[" +:+ i +:+ "][direction]", JStr direction) :: more)
  | _ :: _ => Raise (ValidationError "sort takes field names")
  end.

(** Modelled from the spec: the option classes of [params.py], which is
    not part of the sources.  [fields] takes a string or a list, [sort]
    list entries with an optional [-], [page_size] is at most 100, and
    [formula] passes through.  The wire names are those of the remote API. *)
Definition spec_param_class (o : option_name) (value : json) : result dict :=
  match o with
  | o_max_records => Ok [("maxRecords", value)]
  | o_view => Ok [("view", value)]
  | o_page_size =>
      match value with
      | JInt n =>
          if (n <=? 100)%Z then Ok [("pageSize", value)]
          else Raise (ValidationError "page_size must be at most 100")
      | _ => Raise (ValidationError "page_size must be an integer")
      end
  | o_fields =>
      match value with
      | JStr _ => Ok [("fields[]", JList [value])]
      | JList _ => Ok [("fields[]", value)]
      | _ => Raise (ValidationError "fields must be a string or a list")
      end
  | o_sort =>
      match value with
      | JStr _ => sort_params 0 [value]
      | JList entries => sort_params 0 entries
      | _ => Raise (ValidationError "sort must be a string or a list")
      end
  | o_formula => Ok [("filterByFormula", value)]
  | o_offset => Ok [("offset", value)]
  end.

(** Modelled from the spec: the equality filter of the formula class,
    "value of field equals value". *)
Definition spec_from_name_and_value (field_name : string) (field_value : json)
  : string :=
  "{" +:+ field_name +:+ "}=" +:+ py_repr field_value.

Definition spec_params : ParamsModule :=
  {| param_class := spec_param_class;
     from_name_and_value := spec_from_name_and_value |}.

(** A service that plays a script: one prepared answer per request. *)
Definition scripted : Remote :=
  {| server := list (result response);
     session_request := λ s _,
       match s with
       | [] => (Raise (ConnectionError "no answer left"), [])
       | r :: s' => (r, s')
       end |}.

Definition ok_response (url : string) (data : json) : response :=
  {| status_code := 200; reason := "OK"; url := url; body := Some data |}.

Definition error_response (status : Z) (reason url : string) (data : json)
  : response :=
  {| status_code := status; reason := reason; url := url; body := Some data |}.

(** The content of the page at the head of [pages], with the cursor of the
    page that follows it. *)
Definition page_content (pages : list (string * list json)) : option dict :=
  match pages with
  | [] => None
  | (_, records) :: rest =>
      Some (("records", JList records) ::
            match rest with
            | (next, _) :: _ => [("offset", JStr next)]
            | [] => []
            end)
  end.

Fixpoint page_at (cursor : string) (pages : list (string * list json))
  : option dict :=
  match pages with
  | [] => None
  | (name, _) :: rest =>
      if String.eqb name cursor then page_content pages
      else page_at cursor rest
  end.

(** A service that holds a table in named pages: a GET with no offset gets
    the first page, a GET whose [offset] parameter names a page gets that
    page, anything else is refused. *)
Definition paging (pages : list (string * list json)) : Remote :=
  {| server := unit;
     session_request := λ s rq,
       let content :=
         match rq_params rq ≫= dict_get "offset" with
         | None | Some JNull => page_content pages
         | Some (JStr cursor) => page_at cursor pages
         | Some _ => None
         end in
       match content with
       | Some d => (Ok (ok_response (rq_url rq) (JDict d)), s)
       | None =>
           (Ok (error_response 422 "Unprocessable Entity" (rq_url rq)
                  (JDict [("error", JStr "INVALID_OFFSET")])), s)
       end |}.

(** ** Vocabulary of the statements *)

(** What [_process_params] does with one item: the class of the name,
    applied to the value. *)
Definition encode_item `{ParamsModule} (item : string * json) : result dict :=
  params_class ← AirtableParams_get item.1;
  params_class item.2.

(** The keys of [l] in the order of their first occurrence, leaving out
    those already [seen]. *)
Fixpoint unique_from (seen l : list string) : list string :=
  match l with
  | [] => []
  | k :: l' =>
      if decide (k ∈ seen) then unique_from seen l'
      else k :: unique_from (seen ++ [k]) l'
  end.

Definition first_occurrences (l : list string) : list string :=
  unique_from [] l.

(** The trace of calls made one after the other, each followed by a pause. *)
Definition paced_calls (secs : Q) (rqs : list request) : list event :=
  rqs ≫= λ rq, [Request rq; Sleep secs].

Definition insert_request `{Platform} (self : client) (table_name : string)
  (typecast : bool) (fields : json) : request :=
  post_request (table_url self table_name) (write_payload fields typecast).

Definition delete_record_request `{Platform} (self : client)
  (table_name : string) (record_id : string) : request :=
  delete_request (posixpath_join (table_url self table_name) record_id).

(** The scenario of the spec: the service refuses a filter. *)
Definition response_422 : response :=
  error_response 422 "Unprocessable Entity"
    "https://api.airtable.com/v0/appX/T?filterByFormula=%7BName%7D%3D1"
    (JDict [("error", JStr "INVALID_FILTER")]).

(** Options of a listing, given in no particular order. *)
Definition example_options : dict :=
  [("sort", JList [JStr "A"; JStr "-B"]); ("page_size", JInt 100);
   ("fields", JStr "Name")].

(** An unknown option after a page size that is too large. *)
Definition options_with_unknown_name : dict :=
  [("zzz", JInt 1); ("page_size", JInt 101)].

(** An unknown option among valid ones. *)
Definition options_with_typo : dict :=
  [("veiw", JStr "Grid"); ("page_size", JInt 10)].

Definition start `{Remote} (s : server) : world :=
  {| remote := s; trace := [] |}.

Definition John : json := JDict [("Name", JStr "John")].
Definition Marc : json := JDict [("Name", JStr "Marc")].

Definition created (record_id : string) (fields : json) : json :=
  JDict [("id", JStr record_id); ("fields", fields);
         ("createdTime", JStr "2017-03-14T22:04:31.000Z")].

Definition deleted (record_id : string) : json :=
  JDict [("deleted", JBool true); ("id", JStr record_id)].

(** A client of the table [People] of the base [appX]. *)
Definition people : client := Airtable_init "appX" "People".

Definition people_url : string := "https://api.airtable.com/v0/appX/People".

(** The iterator [it] is about to ask for the page at [offset]: it has not
    started and [offset] is [None], or it is suspended on a page whose
    data holds [offset] as a cursor. *)
Definition resumes (it : generator) (offset : json) : Prop :=
  (it = gen_created ∧ offset = JNull) ∨
  (∃ d, it = gen_suspended (JDict d) ∧ dict_get "offset" d = Some offset ∧
        py_bool offset = true).

(** The table [People] in three pages, the last one empty. *)
Definition people_pages : list (string * list json) :=
  [("", [created "rec1" John; created "rec2" Marc]);
   ("itr1", [created "rec3" John]);
   ("itr2", [])].

(** A table with no record. *)
Definition no_pages : list (string * list json) := [("", [])].

(** The caller filters on its own, and without a filter. *)
Definition options_with_formula : dict :=
  [("formula", JStr "{Age}>30"); ("view", JStr "Grid")].

Definition options_without_formula : dict := [("view", JStr "Grid")].

(** ** More vocabulary: requests, addresses, interrupted listings *)

Definition patch_request (url : string) (json_data : json) : request :=
  {| rq_method := "patch"; rq_url := url; rq_params := None;
     rq_json := Some json_data |}.

Definition put_request (url : string) (json_data : json) : request :=
  {| rq_method := "put"; rq_url := url; rq_params := None;
     rq_json := Some json_data |}.

(** [self.url_table], as [Airtable.__init__] sets it. *)
Definition url_table `{Platform} (base_key table_name : string) : string :=
  posixpath_join (posixpath_join API_URL base_key) (quote table_name).

(** [Airtable.record_url] of a client made with [base_key] and
    [table_name]. *)
Definition record_url `{Platform} (base_key table_name record_id : string)
  : string :=
  posixpath_join (url_table base_key table_name) record_id.

(** What a call makes of the transport's answer. *)
Definition processed `{Platform} (answer : result response) : result json :=
  answer ≫= _process_response.

(** The service gives the first pages of a listing, each with the cursor
    of the next one; [next] is the offset the iterator asks for after
    them. *)
Inductive paged_prefix `{Platform, ParamsModule, Remote} (self : client)
  (table_name : string) (options : dict)
  : server → json → list (list json) → server → json → Prop :=
| prefix_done s offset :
    paged_prefix self table_name options s offset [] s offset
| prefix_more s offset records cursor s' pages s'' next :
    serves_page self table_name options s offset records (Some cursor) s' →
    py_bool cursor = true →
    paged_prefix self table_name options s' cursor pages s'' next →
    paged_prefix self table_name options s offset (records :: pages) s'' next.

(** A table of one record, in one page. *)
Definition one_page : json :=
  JDict [("records", JList [created "rec1" John])].

(** A first page with a cursor. *)
Definition first_page : json :=
  JDict [("records", JList [created "rec1" John]); ("offset", JStr "itr1")].

(** A page whose cursor is empty. *)
Definition page_with_empty_cursor : json :=
  JDict [("records", JList [created "rec1" John]); ("offset", JStr "")].

Definition server_error : response :=
  error_response 500 "Internal Server Error" people_url
    (JDict [("error", JStr "SERVER_ERROR")]).

(** A client whose pause was set below zero. *)
Definition hasty : client :=
  {| cls := Airtable_cls; base_url := base_url people;
     table_name := "People"; API_LIMIT := -1 # 5 |}.

(** * Properties *)

(** ** Strings *)

Lemma append_nil_l (s : string) : "" +:+ s = s.
Proof. reflexivity. Qed.

Lemma append_cons (c : ascii) (s t : string) :
  String c s +:+ t = String c (s +:+ t).
Proof. reflexivity. Qed.

Lemma append_nil_r (s : string) : s +:+ "" = s.
Proof. induction s as [|c s IH]; [done|]. by rewrite append_cons, IH. Qed.

Lemma append_assoc (s t u : string) : (s +:+ t) +:+ u = s +:+ (t +:+ u).
Proof.
  induction s as [|c s IH]; [reflexivity|].
  rewrite !append_cons. by rewrite IH.
Qed.

Lemma prefix_append (s t : string) : String.prefix s (s +:+ t) = true.
Proof.
  induction s as [|c s IH]; [by destruct t|].
  rewrite append_cons. simpl. rewrite IH.
  by destruct (ascii_dec c c).
Qed.

Lemma prefix_append_l (a s t : string) :
  String.prefix a s = true → String.prefix a (s +:+ t) = true.
Proof.
  revert s. induction a as [|c a IH]; intros s Hp.
  - by destruct (s +:+ t).
  - destruct s as [|c' s]; [done|]. rewrite append_cons. simpl in *.
    destruct (ascii_dec c c'); [by apply IH|done].
Qed.

Lemma prefix_split (a s : string) :
  String.prefix a s = true → ∃ post, s = a +:+ post.
Proof.
  revert s. induction a as [|c a IH]; intros s Hp; [by exists s|].
  destruct s as [|c' s]; [done|]. simpl in Hp.
  destruct (ascii_dec c c') as [->|]; [|done].
  destruct (IH _ Hp) as [post ->]. by exists post.
Qed.

Lemma substr_in_prefix (a s : string) :
  String.prefix a s = true → substr_in a s = true.
Proof. intros Hp. destruct s; cbn [substr_in]; by rewrite Hp. Qed.

Lemma substr_in_cons (a : string) (c : ascii) (s : string) :
  substr_in a s = true → substr_in a (String c s) = true.
Proof. intros Hs. cbn [substr_in]. rewrite Hs. apply orb_true_r. Qed.

Lemma substr_in_append_r (a s t : string) :
  substr_in a t = true → substr_in a (s +:+ t) = true.
Proof.
  intros Ht. induction s as [|c s IH]; [done|].
  rewrite append_cons. by apply substr_in_cons.
Qed.

Lemma substr_in_append_l (a s t : string) :
  substr_in a s = true → substr_in a (s +:+ t) = true.
Proof.
  induction s as [|c s IH]; intros Hs.
  - simpl in Hs. rewrite orb_false_r in Hs.
    apply substr_in_prefix, (prefix_append_l a "" t Hs).
  - cbn [substr_in] in Hs. apply orb_true_iff in Hs as [Hp|Hs].
    + by apply substr_in_prefix, prefix_append_l.
    + rewrite append_cons. by apply substr_in_cons, IH.
Qed.

Lemma substr_in_middle (a s t : string) : substr_in a (s +:+ a +:+ t) = true.
Proof. apply substr_in_append_r, substr_in_prefix, prefix_append. Qed.

(** [substr_in] is the substring relation. *)
Lemma substr_in_spec (a s : string) :
  substr_in a s = true ↔ ∃ pre post, s = pre +:+ a +:+ post.
Proof.
  split.
  - induction s as [|c s IH]; intros Hs.
    + destruct a; [|done]. by exists "", "".
    + cbn [substr_in] in Hs. apply orb_true_iff in Hs as [Hp|Hs].
      * destruct (prefix_split _ _ Hp) as [post ->]. by exists "", post.
      * destruct (IH Hs) as (pre & post & ->).
        by exists (String c pre), post.
  - intros (pre & post & ->). apply substr_in_middle.
Qed.

Lemma replace_from_contains (old new s : string) :
  old ≠ "" →
  substr_in old s = true → substr_in new (replace_from old new 0 s) = true.
Proof.
  intros Hold. induction s as [|c s IH]; intros Hs.
  - by destruct old.
  - cbn [replace_from]. cbn [substr_in] in Hs.
    destruct (String.prefix old (String c s)) eqn:Hp.
    + apply substr_in_prefix, prefix_append.
    + simpl in Hs. by apply substr_in_cons, IH.
Qed.

Lemma replace_empty_contains (new s : string) :
  substr_in new (replace_empty new s) = true.
Proof.
  destruct s as [|c s]; simpl replace_empty.
  - apply substr_in_prefix. by rewrite <-(append_nil_r new) at 2; apply prefix_append.
  - apply substr_in_prefix, prefix_append.
Qed.

(** Replacing a text that occurs leaves its replacement in the result. *)
Lemma py_replace_contains (s old new : string) :
  substr_in old s = true → substr_in new (py_replace s old new) = true.
Proof.
  intros Hs. destruct old.
  - apply replace_empty_contains.
  - by apply replace_from_contains.
Qed.

(** ** Responses *)

Lemma process_response_accepted `{Platform} (r : response) (data : json) :
  accepted r data → _process_response r = Ok data.
Proof.
  intros [Hstatus Hbody]. unfold _process_response, raise_for_status.
  replace ((400 <=? status_code r)%Z && (status_code r <? 500)%Z) with false
    by (symmetry; apply andb_false_iff; lia).
  replace ((500 <=? status_code r)%Z && (status_code r <? 600)%Z) with false
    by (symmetry; apply andb_false_iff; lia).
  unfold response_json. by rewrite Hbody.
Qed.

Lemma send_eq `{Remote} (rq : request) (w : world) r s' :
  session_request (remote w) rq = (r, s') →
  send rq w = Some (r, after w s' [Request rq]).
Proof. intros Hs. unfold send. by rewrite Hs. Qed.

Lemma request_eq `{Platform, Remote} method u params json_data w r s' :
  let rq := {| rq_method := method; rq_url := u; rq_params := params;
               rq_json := json_data |} in
  session_request (remote w) rq = (Ok r, s') →
  _request method u params json_data w =
    Some (_process_response r, after w s' [Request rq]).
Proof.
  intros rq Hs. subst rq. unfold _request, mbind, M_bind.
  by rewrite (send_eq _ w (Ok r) s' Hs).
Qed.

(** C6, as amended: a response with status 422 whose JSON content has an
    ["error"] entry makes the call raise an HTTP error whose message holds
    the server's error detail, and, unless the interpreter is IronPython
    (where the decoding is switched off), the percent-decoded URL of the
    response. *)
Theorem http_422_message `{Platform, Remote} (r : response) (d : dict)
  (detail : json) :
  status_code r = 422%Z →
  body r = Some (JDict d) →
  dict_get "error" d = Some detail →
  ∃ msg,
    _process_response r = Raise (HTTPError msg) ∧
    substr_in (format_value detail) msg = true ∧
    (IS_IPY = false → substr_in (unquote (url r)) msg = true) ∧
    ∀ method u params json_data w s',
      let rq := {| rq_method := method; rq_url := u; rq_params := params;
                   rq_json := json_data |} in
      session_request (remote w) rq = (Ok r, s') →
      _request method u params json_data w =
        Some (Raise (HTTPError msg), after w s' [Request rq]).
Proof.
  intros Hstatus Hbody Herror.
  set (m0 := "422 Client Error: " +:+ reason r +:+ " for url: " +:+ url r).
  set (m1 := if negb IS_IPY
             then py_replace m0 (url r) (unquote (url r)) +:+ " (Decoded URL)"
             else m0).
  assert (Hpr : _process_response r =
    Raise (HTTPError (m1 +:+ " [Error: " +:+ format_value detail +:+ "]"))).
  { unfold _process_response, raise_for_status. rewrite Hstatus.
    change (str_of_Z 422 +:+ " Client Error: " +:+ reason r +:+ " for url: "
            +:+ url r) with m0.
    cbn [Z.leb Z.ltb Z.compare Pos.compare Pos.compare_cont andb].
    unfold error_message, response_json. rewrite Hstatus, Hbody.
    cbn [Z.eqb Pos.eqb andb]. rewrite andb_true_r. fold m1.
    unfold contains_error_key, mbind, result_bind. rewrite Herror.
    rewrite bool_decide_eq_true_2 by eauto.
    unfold py_getitem. by rewrite Herror. }
  eexists. split; [exact Hpr|]. split; [|split].
  - do 2 apply substr_in_append_r. apply substr_in_prefix, prefix_append.
  - intros Hipy. apply substr_in_append_l. unfold m1. rewrite Hipy.
    simpl negb. cbv iota. apply substr_in_append_l, py_replace_contains.
    unfold m0. by do 3 apply substr_in_append_r; apply substr_in_prefix;
      rewrite <-(append_nil_r (url r)) at 2; apply prefix_append.
  - intros method u params json_data w s' rq Hs.
    by rewrite (request_eq _ _ _ _ _ _ _ Hs), Hpr.
Qed.

Lemma http_422_message_witness :
  ∃ msg,
    @_process_response cpython response_422 = Raise (HTTPError msg) ∧
    substr_in "INVALID_FILTER" msg = true ∧
    substr_in "https://api.airtable.com/v0/appX/T?filterByFormula={Name}=1"
      msg = true.
Proof.
  destruct (@http_422_message cpython scripted response_422 _
              (JStr "INVALID_FILTER") eq_refl eq_refl eq_refl)
    as (msg & Hmsg & Hdetail & Hurl & _).
  exists msg. split; [exact Hmsg|]. split; [exact Hdetail|exact (Hurl eq_refl)].
Defined.

(** C6, as stated, fails under IronPython: the message keeps the URL as it
    was sent and does not hold its decoded form. *)
Lemma http_422_message_ironpython :
  ¬ ∃ msg,
      @_process_response ironpython response_422 = Raise (HTTPError msg) ∧
      substr_in (@unquote ironpython (url response_422)) msg = true ∧
      substr_in "INVALID_FILTER" msg = true.
Proof.
  intros (msg & Hmsg & Hurl & _). vm_compute in Hmsg.
  injection Hmsg as <-. vm_compute in Hurl. discriminate.
Qed.

(** ** Dictionaries and the order of the items *)

Lemma dict_get_None (k : string) (d : dict) :
  dict_get k d = None ↔ k ∉ keys d.
Proof.
  unfold keys. induction d as [|[k' v] d IH]; simpl.
  - split; [intros _; apply not_elem_of_nil|done].
  - rewrite not_elem_of_cons. destruct (decide (k = k')); [|tauto].
    split; [done|]. by intros [? _].
Qed.

Lemma dict_get_elem (k : string) (v : json) (d : dict) :
  NoDup (keys d) → (k, v) ∈ d → dict_get k d = Some v.
Proof.
  unfold keys. induction d as [|[k' v'] d IH]; simpl; intros Hnd Hin.
  - by apply elem_of_nil in Hin.
  - apply NoDup_cons in Hnd as [Hk Hnd].
    apply elem_of_cons in Hin as [[= -> ->]|Hin].
    + by destruct (decide (k' = k')).
    + destruct (decide (k = k')) as [->|]; [|by apply IH].
      destruct Hk. apply (list_elem_of_fmap_2 fst _ _ Hin).
Qed.

Lemma dict_get_Some (k : string) (v : json) (d : dict) :
  dict_get k d = Some v → (k, v) ∈ d.
Proof.
  induction d as [|[k' v'] d IH]; simpl; [done|].
  destruct (decide (k = k')) as [->|]; intros Hg.
  - injection Hg as ->. apply elem_of_cons; by left.
  - apply elem_of_cons; right; by apply IH.
Qed.

Lemma same_name_same_item (d : dict) (x y : string * json) :
  NoDup (keys d) → x ∈ d → y ∈ d → x.1 = y.1 → x = y.
Proof.
  destruct x as [k v], y as [k' v']; simpl. intros Hnd Hx Hy <-.
  apply (dict_get_elem _ _ _ Hnd) in Hx, Hy. congruence.
Qed.

Lemma keys_dict_set (k : string) (v : json) (d : dict) :
  keys (dict_set k v d) = if decide (k ∈ keys d) then keys d else keys d ++ [k].
Proof.
  unfold keys. induction d as [|[k' v'] d IH]; [done|].
  cbn [dict_set fmap list_fmap fst].
  destruct (decide (k = k')) as [->|Hne]; cbn [fmap list_fmap fst].
  - by rewrite decide_True by (apply elem_of_cons; by left).
  - rewrite IH. destruct (decide (k ∈ d.*1)) as [Hin|Hnin].
    + by rewrite decide_True by (apply elem_of_cons; by right).
    + rewrite decide_False; [done|]. rewrite elem_of_cons. tauto.
Qed.

Lemma dict_get_dict_set (k : string) (v : json) (d : dict) :
  dict_get k (dict_set k v d) = Some v.
Proof.
  induction d as [|[k' v'] d IH]; simpl.
  - by destruct (decide (k = k)).
  - destruct (decide (k = k')) as [->|Hne]; simpl.
    + by destruct (decide (k' = k')).
    + by destruct (decide (k = k')).
Qed.

#[export] Instance name_le_trans : Transitive name_le.
Proof. intros x y z. unfold name_le. apply transitivity. Qed.

#[export] Instance name_le_total : Total name_le.
Proof. intros x y. unfold name_le. apply total, _. Qed.

Lemma sorted_items_perm (params : dict) : sorted_items params ≡ₚ params.
Proof. apply merge_sort_Permutation. Qed.

Lemma sorted_items_sorted (params : dict) :
  Sorted String.le (keys (sorted_items params)).
Proof.
  unfold keys. apply (Sorted_fmap _ name_le String.le); [done|].
  apply (Sorted_merge_sort name_le).
Qed.

(** The sorted items depend on the mapping only, not on the order in which
    its entries were inserted. *)
Lemma sorted_items_unique (params params' : dict) :
  NoDup (keys params) → params' ≡ₚ params →
  sorted_items params' = sorted_items params.
Proof.
  intros Hnd Hperm.
  apply (Sorted_unique_strong name_le).
  - intros x y Hx Hy Hxy Hyx.
    apply (same_name_same_item params); [done| | |].
    + by rewrite <-Hperm, <-(sorted_items_perm params').
    + by rewrite <-(sorted_items_perm params).
    + by apply (anti_symm String.le).
  - apply (Sorted_merge_sort name_le).
  - apply (Sorted_merge_sort name_le).
  - by rewrite !sorted_items_perm.
Qed.

(** ** The parameter encoder *)

Lemma process_params_loop_eq `{ParamsModule} (params items acc : dict) :
  (∀ item, item ∈ items → dict_get item.1 params = Some item.2) →
  _process_params_loop params items acc =
    ds ← mapM encode_item items; Ok (foldl dict_update acc ds).
Proof.
  revert acc. induction items as [|[name value] items IH]; intros acc Hget.
  - done.
  - cbn [_process_params_loop mapM].
    assert (Hg : dict_get name params = Some value)
      by (apply (Hget (name, value)), elem_of_cons; by left).
    rewrite Hg.
    assert (IH' := λ acc', IH acc' (λ item Hin,
      Hget item (proj2 (elem_of_cons _ _ _) (or_intror Hin)))).
    unfold encode_item, mbind, mret, result_bind, result_ret in *.
    cbn [fst snd].
    destruct (AirtableParams_get name) as [params_class|e]; [|done].
    destruct (params_class value) as [d|e]; [|done].
    rewrite IH'. by destruct (mapM _ items).
Qed.

(** [_process_params] encodes the items in the order of their names and
    merges the results. *)
Lemma process_params_eq `{ParamsModule} (params : dict) :
  NoDup (keys params) →
  _process_params params =
    ds ← mapM encode_item (sorted_items params); Ok (foldl dict_update [] ds).
Proof.
  intros Hnd. apply process_params_loop_eq. intros [name value] Hin.
  apply dict_get_elem; [done|]. by rewrite <-(sorted_items_perm params).
Qed.

Lemma process_params_perm `{ParamsModule} (params params' : dict) :
  NoDup (keys params) → params' ≡ₚ params →
  _process_params params' = _process_params params.
Proof.
  intros Hnd Hperm. rewrite !process_params_eq; [|done|].
  - by rewrite (sorted_items_unique params params').
  - unfold keys. by rewrite Hperm.
Qed.

Lemma mapM_result_app {A B} (f : A → result B) (l1 l2 : list A) :
  mapM f (l1 ++ l2) =
    ds1 ← mapM f l1; ds2 ← mapM f l2; Ok (ds1 ++ ds2).
Proof.
  induction l1 as [|x l1 IH]; cbn [app mapM].
  - unfold mbind, mret, result_bind, result_ret. by destruct (mapM f l2).
  - unfold mbind, mret, result_bind, result_ret in *.
    destruct (f x); [|done]. rewrite IH.
    destruct (mapM f l1); [|done]. by destruct (mapM f l2).
Qed.

Lemma mapM_result_Ok {A B} (f : A → result B) (l : list A) :
  Forall (λ x, ∃ y, f x = Ok y) l →
  ∃ ys, mapM f l = Ok ys ∧ Forall2 (λ x y, f x = Ok y) l ys.
Proof.
  induction 1 as [|x l [y Hy] _ (ys & Hys & Hall)].
  - exists []. by split.
  - exists (y :: ys). split; [|by constructor].
    cbn [mapM]. by rewrite Hy, Hys.
Qed.

Lemma mapM_result_Raise {A B} (f : A → result B) (l : list A) (e : exn) :
  mapM f l = Raise e → ∃ x, x ∈ l ∧ f x = Raise e.
Proof.
  induction l as [|x l IH]; cbn [mapM]; [done|].
  unfold mbind, mret, result_bind, result_ret.
  destruct (f x) as [y|e'] eqn:Hx.
  - destruct (mapM f l) as [ys|e'']; [done|]. intros [= ->].
    destruct IH as (x' & Hin & Hx'); [done|].
    exists x'. split; [by apply elem_of_cons; right|done].
  - intros [= ->]. exists x. split; [by apply elem_of_cons; left|done].
Qed.

Lemma elem_of_concat {A} (x : A) (ls : list (list A)) :
  x ∈ concat ls ↔ ∃ l, x ∈ l ∧ l ∈ ls.
Proof.
  induction ls as [|l ls IH]; cbn [concat].
  - split; [by intros ?%elem_of_nil|by intros (? & _ & ?%elem_of_nil)].
  - rewrite elem_of_app, IH. split.
    + intros [Hl|(l' & Hx & Hl')].
      * exists l. split; [done|by apply elem_of_cons; left].
      * exists l'. split; [done|by apply elem_of_cons; right].
    + intros (l' & Hx & [->|Hl']%elem_of_cons); [by left|right; eauto].
Qed.

Lemma foldl_dict_update (acc : dict) (ds : list dict) :
  foldl dict_update acc ds =
    foldl (λ acc kv, dict_set kv.1 kv.2 acc) acc (concat ds).
Proof.
  revert acc. induction ds as [|d ds IH]; intros acc; [done|].
  cbn [foldl concat]. by rewrite foldl_app, IH.
Qed.

Lemma unique_from_equiv (seen seen' l : list string) :
  (∀ k, k ∈ seen ↔ k ∈ seen') → unique_from seen l = unique_from seen' l.
Proof.
  revert seen seen'. induction l as [|k l IH]; intros seen seen' Heq; [done|].
  cbn [unique_from]. destruct (decide (k ∈ seen)) as [Hin|Hnin].
  - rewrite decide_True by by apply Heq. by apply IH.
  - rewrite decide_False by by rewrite <-Heq. f_equal. apply IH.
    intros k'. rewrite !elem_of_app. by rewrite Heq.
Qed.

Lemma elem_of_unique_from (k : string) (seen l : list string) :
  k ∈ unique_from seen l ↔ k ∈ l ∧ k ∉ seen.
Proof.
  revert seen. induction l as [|k' l IH]; intros seen; cbn [unique_from].
  - split; [by intros ?%elem_of_nil|by intros [?%elem_of_nil _]].
  - destruct (decide (k' ∈ seen)) as [Hin|Hnin].
    + rewrite IH, elem_of_cons. split; [tauto|].
      intros [[->|?] ?]; tauto.
    + rewrite !elem_of_cons, IH, elem_of_app, list_elem_of_singleton.
      destruct (decide (k = k')) as [->|]; tauto.
Qed.

(** Merging items into a dictionary keeps its keys and adds the new ones
    in the order in which they first come. *)
Lemma keys_foldl_dict_set (acc l : dict) :
  keys (foldl (λ acc kv, dict_set kv.1 kv.2 acc) acc l) =
    keys acc ++ unique_from (keys acc) (keys l).
Proof.
  revert acc. induction l as [|[k v] l IH]; intros acc.
  - by rewrite app_nil_r.
  - cbn [foldl fst snd]. rewrite IH, keys_dict_set.
    change (keys ((k, v) :: l)) with (k :: keys l). cbn [unique_from].
    destruct (decide (k ∈ keys acc)); [done|].
    by rewrite <-app_assoc.
Qed.

(** C7: for a mapping of recognized option names to valid values, the
    encoder succeeds; its output merges the wire parameters of the options
    taken in the order of their names, so its keys are exactly the wire
    keys of the options present, in that order; and the output is the same
    whatever the order in which the mapping was filled. *)
Theorem process_params_deterministic `{ParamsModule} (params : dict) :
  NoDup (keys params) →
  (∀ item, item ∈ params → ∃ d, encode_item item = Ok d) →
  ∃ ds out,
    Forall2 (λ item d, encode_item item = Ok d) (sorted_items params) ds ∧
    _process_params params = Ok out ∧
    out = foldl dict_update [] ds ∧
    keys out = first_occurrences (keys (concat ds)) ∧
    (∀ k, k ∈ keys out ↔
          ∃ item d, item ∈ params ∧ encode_item item = Ok d ∧ k ∈ keys d) ∧
    Sorted String.le (keys (sorted_items params)) ∧
    sorted_items params ≡ₚ params ∧
    (∀ params', params' ≡ₚ params → _process_params params' = Ok out).
Proof.
  intros Hnd Hvalid.
  destruct (mapM_result_Ok encode_item (sorted_items params))
    as (ds & Hds & Hall).
  { apply Forall_forall. intros item Hin. apply Hvalid.
    by rewrite <-(sorted_items_perm params). }
  assert (Hout : _process_params params = Ok (foldl dict_update [] ds)).
  { rewrite process_params_eq by done. by rewrite Hds. }
  assert (Hkeys : keys (foldl dict_update [] ds) =
                  first_occurrences (keys (concat ds))).
  { by rewrite foldl_dict_update, keys_foldl_dict_set. }
  exists ds, (foldl dict_update [] ds).
  split_and!; [done|done|done|done| |apply sorted_items_sorted
               |apply sorted_items_perm|].
  - intros k. rewrite Hkeys. unfold first_occurrences.
    rewrite elem_of_unique_from. unfold keys at 1.
    rewrite list_elem_of_fmap. split.
    + intros [([k' v] & -> & Hin) _].
      apply elem_of_concat in Hin as (d & Hkd & Hd).
      destruct (proj1 (list_elem_of_lookup ds d) Hd) as [i Hi].
      destruct (Forall2_lookup_r _ _ _ _ _ Hall Hi) as (item & Hitem & Henc).
      exists item, d. split_and!; [|done|].
      * rewrite <-(sorted_items_perm params).
        by apply list_elem_of_lookup_2 in Hitem.
      * apply (list_elem_of_fmap_2 fst _ _ Hkd).
    + intros (item & d & Hin & Henc & Hk). split; [|apply not_elem_of_nil].
      rewrite <-(sorted_items_perm params) in Hin.
      destruct (proj1 (list_elem_of_lookup _ item) Hin) as [i Hi].
      destruct (Forall2_lookup_l _ _ _ _ _ Hall Hi) as (d' & Hd' & Henc').
      assert (d' = d) as -> by congruence.
      apply list_elem_of_fmap in Hk as ([k' v] & -> & Hkv).
      exists (k', v). split; [done|]. apply elem_of_concat.
      exists d. split; [done|]. by apply list_elem_of_lookup_2 in Hd'.
  - intros params' Hperm. by rewrite (process_params_perm params params').
Qed.

Lemma process_params_deterministic_witness :
  NoDup (keys example_options) ∧
  ∃ out,
    @_process_params spec_params example_options = Ok out ∧
    @_process_params spec_params (reverse example_options) = Ok out ∧
    keys out = ["fields[]"; "pageSize"; "sort[0][field]";
                "sort[0][direction]"; "sort[1][field]"; "sort[1][direction]"].
Proof.
  assert (Hnd : NoDup (keys example_options))
    by (apply (bool_decide_unpack _); vm_compute; exact I).
  split; [exact Hnd|].
  destruct (@process_params_deterministic spec_params example_options Hnd)
    as (ds & out & _ & Hout & _ & _ & _ & _ & _ & Hperm).
  { intros item Hin. unfold example_options in Hin.
    repeat (apply elem_of_cons in Hin as [->|Hin]; [by eexists|]).
    by apply elem_of_nil in Hin. }
  exists out. split; [exact Hout|]. split.
  - apply Hperm, reverse_Permutation.
  - vm_compute in Hout. injection Hout as <-. reflexivity.
Defined.

Lemma first_unrecognized (items : dict) :
  (∃ name, name ∈ keys items ∧ option_of_kwarg name = None) →
  ∃ pre name value post,
    items = pre ++ (name, value) :: post ∧
    Forall (λ item, is_Some (option_of_kwarg item.1)) pre ∧
    option_of_kwarg name = None.
Proof.
  induction items as [|[name value] items IH]; intros (bad & Hin & Hbad).
  - by apply elem_of_nil in Hin.
  - destruct (option_of_kwarg name) as [o|] eqn:Hname.
    + destruct IH as (pre & name' & value' & post & -> & Hpre & Hname').
      { exists bad. split; [|done].
        apply elem_of_cons in Hin as [->|Hin]; [|done].
        simpl in Hbad. congruence. }
      exists ((name, value) :: pre), name', value', post.
      split_and!; [done| |done]. constructor; [simpl; rewrite Hname; eauto|done].
    + by exists [], name, value, items.
Qed.

(** C8, as amended: when an option name is not of the vocabulary, the
    encoder fails, gives no output, and [_get] sends no request.  The
    error is [UnknownParameterError] for the first unrecognized name in
    the order of the names, unless a recognized option before it is
    refused first, whose error is then the one raised. *)
Theorem process_params_unknown_name `{Platform, ParamsModule, Remote}
  (params : dict) (url : string) (w : world) :
  NoDup (keys params) →
  (∃ name, name ∈ keys params ∧ option_of_kwarg name = None) →
  ∃ e pre name value post,
    _process_params params = Raise e ∧
    _get url params w = Some (Raise e, w) ∧
    sorted_items params = pre ++ (name, value) :: post ∧
    Forall (λ item, is_Some (option_of_kwarg item.1)) pre ∧
    option_of_kwarg name = None ∧
    (e = UnknownParameterError name ∨
     ∃ item, item ∈ pre ∧ encode_item item = Raise e) ∧
    (Forall (λ item, ∃ d, encode_item item = Ok d) pre →
     e = UnknownParameterError name).
Proof.
  intros Hnd Hbad.
  destruct (first_unrecognized (sorted_items params))
    as (pre & name & value & post & Hsorted & Hpre & Hname).
  { destruct Hbad as (bad & Hin & Hbad). exists bad. split; [|done].
    unfold keys. by rewrite (sorted_items_perm params). }
  assert (Hitem : encode_item (name, value) =
                  Raise (UnknownParameterError name)).
  { unfold encode_item, AirtableParams_get. cbn [fst]. by rewrite Hname. }
  assert (Hget : ∀ e, _process_params params = Raise e →
                      _get url params w = Some (Raise e, w)).
  { intros e He. unfold _get, mbind, M_bind, lift. by rewrite He. }
  assert (Hall : _process_params params =
    match (mapM encode_item pre : result (list dict)) with
    | Ok _ => Raise (UnknownParameterError name)
    | Raise e => Raise e
    end).
  { rewrite process_params_eq, Hsorted, mapM_result_app by done.
    cbn [mapM]. rewrite Hitem.
    by destruct (mapM encode_item pre : result (list dict)). }
  destruct (mapM encode_item pre : result (list dict)) as [ds1|e] eqn:Hds1.
  - assert (He : _process_params params = Raise (UnknownParameterError name))
      by done.
    exists (UnknownParameterError name), pre, name, value, post.
    split_and!; [done|by apply Hget|done|done|done|by left|done].
  - assert (He : _process_params params = Raise e) by by rewrite Hall.
    destruct (mapM_result_Raise _ _ _ Hds1) as (item & Hin & Hraise).
    exists e, pre, name, value, post.
    split_and!; [done|by apply Hget|done|done|done|right; eauto|].
    intros Hok. rewrite Forall_forall in Hok.
    destruct (Hok item Hin) as [d Hd]. congruence.
Qed.

Lemma process_params_unknown_name_witness :
  @_process_params spec_params options_with_typo =
    Raise (UnknownParameterError "veiw") ∧
  @_get cpython spec_params scripted people_url options_with_typo
    (@start scripted []) =
    Some (Raise (UnknownParameterError "veiw"), @start scripted []).
Proof.
  assert (Hnd : NoDup (keys options_with_typo))
    by (apply (bool_decide_unpack _); vm_compute; exact I).
  assert (Hbad : ∃ name, name ∈ keys options_with_typo ∧
                         option_of_kwarg name = None).
  { exists "veiw". split; [apply elem_of_cons; by left|reflexivity]. }
  assert (He : @_process_params spec_params options_with_typo =
               Raise (UnknownParameterError "veiw")) by reflexivity.
  split; [exact He|].
  destruct (@process_params_unknown_name cpython spec_params scripted
              options_with_typo people_url (@start scripted []) Hnd Hbad)
    as (e & pre & name & value & post & He' & Hget & _).
  rewrite Hget. rewrite He in He'. by injection He' as <-.
Defined.

(** C8, as stated, fails when an option before the unknown name is
    refused: the page size is looked at first, and its error is raised. *)
Lemma process_params_validation_first :
  NoDup (keys options_with_unknown_name) ∧
  (∃ name, name ∈ keys options_with_unknown_name ∧
           option_of_kwarg name = None) ∧
  ¬ ∃ name, @_process_params spec_params options_with_unknown_name =
              Raise (UnknownParameterError name).
Proof.
  split_and!.
  - apply (bool_decide_unpack _). vm_compute. exact I.
  - exists "zzz". split; [apply elem_of_cons; by left|reflexivity].
  - intros [name Hname]. vm_compute in Hname. discriminate.
Qed.

(** ** Calls *)

Lemma after_after `{Remote} (w : world) s evs s' evs' :
  after (after w s evs) s' evs' = after w s' (evs ++ evs').
Proof. unfold after. cbn [trace]. by rewrite app_assoc. Qed.

Lemma after_nil `{Remote} (w : world) : after w (remote w) [] = w.
Proof. destruct w. unfold after. cbn. by rewrite app_nil_r. Qed.

Lemma sleep_eq `{Remote} (secs : Q) (w : world) :
  (0 <= secs)%Q →
  sleep secs w = Some (Ok (), after w (remote w) [Sleep secs]).
Proof.
  intros Hsecs. unfold sleep.
  by rewrite (proj2 (Qle_bool_iff 0 secs) Hsecs).
Qed.

Lemma request_accepted `{Platform, Remote} method u params json_data w r s'
  data :
  let rq := {| rq_method := method; rq_url := u; rq_params := params;
               rq_json := json_data |} in
  session_request (remote w) rq = (Ok r, s') →
  accepted r data →
  _request method u params json_data w =
    Some (Ok data, after w s' [Request rq]).
Proof.
  intros rq Hs Hacc.
  by rewrite (request_eq _ _ _ _ _ _ _ Hs), (process_response_accepted r data).
Qed.

(** ** Batches *)

Lemma paced_calls_cons (secs : Q) (rq : request) (rqs : list request) :
  paced_calls secs (rq :: rqs) =
    [Request rq; Sleep secs] ++ paced_calls secs rqs.
Proof. done. Qed.

(** A batch whose calls are all answered makes them in the order of the
    items, with a pause after each. *)
Lemma batch_request_answered `{Platform, Remote} {A B} (self : client)
  (func : A → M json) (g : B → A) (rq_of : B → request) :
  (0 <= API_LIMIT self)%Q →
  (∀ item w r s' data,
     session_request (remote w) (rq_of item) = (Ok r, s') →
     accepted r data →
     func (g item) w = Some (Ok data, after w s' [Request (rq_of item)])) →
  ∀ items w datas s',
    answers (remote w) (rq_of <$> items) datas s' →
    _batch_request self func (g <$> items) w =
      Some (Ok datas,
            after w s' (paced_calls (API_LIMIT self) (rq_of <$> items))).
Proof.
  intros Hlimit Hfunc items.
  induction items as [|item items IH]; intros w datas s' Hans.
  - inversion Hans; subst. cbn. by rewrite after_nil.
  - cbn [fmap list_fmap] in Hans. inversion Hans as [|? ? r s1 data ? datas' ? Hs Hacc Hrest]; subst.
    cbn [fmap list_fmap _batch_request]. unfold mbind, M_bind.
    rewrite (Hfunc item w r s1 data Hs Hacc).
    rewrite (sleep_eq _ _ Hlimit). cbn [remote after].
    fold (after w s1 [Request (rq_of item)]).
    rewrite after_after.
    rewrite (IH _ datas' s') by done.
    by rewrite after_after, paced_calls_cons.
Qed.

Lemma requests_paced_calls (secs : Q) (rqs : list request) :
  requests (paced_calls secs rqs) = rqs.
Proof.
  induction rqs as [|rq rqs IH]; [done|].
  rewrite paced_calls_cons. unfold requests in *. cbn. by rewrite IH.
Qed.

Lemma gaps_from_paced_calls (secs : Q) (rqs : list request) (since : option Q) :
  (∀ gap, since = Some gap → (secs <= gap)%Q) →
  Forall (λ gap, (secs <= gap)%Q) (gaps_from since (paced_calls secs rqs)).
Proof.
  revert since. induction rqs as [|rq rqs IH]; intros since Hsince.
  - constructor.
  - rewrite paced_calls_cons. cbn [app gaps_from fmap option_fmap option_map].
    assert (Hrest : Forall (λ gap, (secs <= gap)%Q)
                      (gaps_from (Some (secs + 0)%Q) (paced_calls secs rqs))).
    { apply IH. intros gap [= <-]. lra. }
    destruct since as [gap|]; [|done]. constructor; [by apply Hsince|done].
Qed.

Lemma paced_paced_calls (secs : Q) (rqs : list request) :
  paced secs (paced_calls secs rqs).
Proof. by apply gaps_from_paced_calls. Qed.

Lemma insert_in_table_accepted `{Platform, Remote} self table_name typecast
  fields w r s' data :
  session_request (remote w)
    (insert_request self table_name typecast fields) = (Ok r, s') →
  accepted r data →
  insert_in_table self table_name fields typecast w =
    Some (Ok data,
          after w s' [Request (insert_request self table_name typecast fields)]).
Proof.
  intros Hs Hacc.
  exact (request_accepted "post" _ None (Some _) w r s' data Hs Hacc).
Qed.

Lemma delete_in_table_accepted `{Platform, Remote} self table_name record_id
  w r s' data :
  session_request (remote w)
    (delete_record_request self table_name record_id) = (Ok r, s') →
  accepted r data →
  delete_in_table self table_name (JStr record_id) w =
    Some (Ok data,
          after w s'
            [Request (delete_record_request self table_name record_id)]).
Proof.
  intros Hs Hacc. unfold delete_in_table, record_table_url, mbind, M_bind, lift.
  exact (request_accepted "delete" _ None None w r s' data Hs Hacc).
Qed.

(** C9, as amended: a batch insert of K records whose calls the service
    all answers issues exactly K insert calls, in the order of the records,
    each followed by a pause of [API_LIMIT] seconds, so that consecutive
    calls are [API_LIMIT] seconds apart or more; [AirtableBase.batch_delete]
    of K record ids is paced the same way. *)
Theorem batch_calls_paced `{Platform, Remote} (self : client)
  (table_name : string) (w : world) (datas : list json) (s' : server) :
  (0 <= API_LIMIT self)%Q →
  (∀ (records : list json) (typecast : bool),
     let rqs := insert_request self table_name typecast <$> records in
     answers (remote w) rqs datas s' →
     batch_insert_in_table self table_name records typecast w =
       Some (Ok datas, after w s' (paced_calls (API_LIMIT self) rqs)) ∧
     requests (paced_calls (API_LIMIT self) rqs) = rqs ∧
     length rqs = length records ∧
     paced (API_LIMIT self) (paced_calls (API_LIMIT self) rqs)) ∧
  (∀ record_ids : list string,
     let rqs := delete_record_request self table_name <$> record_ids in
     answers (remote w) rqs datas s' →
     batch_delete self table_name (JStr <$> record_ids) w =
       Some (Ok datas, after w s' (paced_calls (API_LIMIT self) rqs)) ∧
     requests (paced_calls (API_LIMIT self) rqs) = rqs ∧
     length rqs = length record_ids ∧
     paced (API_LIMIT self) (paced_calls (API_LIMIT self) rqs)).
Proof.
  intros Hlimit. split.
  - intros records typecast rqs Hans.
    split_and!; [|apply requests_paced_calls|apply length_fmap
                 |apply paced_paced_calls].
    unfold batch_insert_in_table.
    rewrite <-(list_fmap_id records) at 1.
    apply (batch_request_answered self _ id
             (insert_request self table_name typecast)); [done| |done].
    intros fields w0 r s0 data. apply insert_in_table_accepted.
  - intros record_ids rqs Hans.
    split_and!; [|apply requests_paced_calls|apply length_fmap
                 |apply paced_paced_calls].
    unfold batch_delete.
    apply (batch_request_answered self _ JStr
             (delete_record_request self table_name)); [done| |done].
    intros record_id w0 r s0 data. apply delete_in_table_accepted.
Qed.

Lemma batch_calls_paced_witness :
  @batch_insert_in_table cpython scripted people "People" [John; Marc] false
    (@start scripted [Ok (ok_response people_url (created "rec1" John));
            Ok (ok_response people_url (created "rec2" Marc))]) =
    Some (Ok [created "rec1" John; created "rec2" Marc],
          @Build_world scripted []
            [Request (post_request people_url (write_payload John false));
             Sleep (1 # 5);
             Request (post_request people_url (write_payload Marc false));
             Sleep (1 # 5)]) ∧
  @batch_delete cpython scripted people "People" [JStr "rec1"; JStr "rec2"]
    (@start scripted [Ok (ok_response people_url (deleted "rec1"));
            Ok (ok_response people_url (deleted "rec2"))]) =
    Some (Ok [deleted "rec1"; deleted "rec2"],
          @Build_world scripted []
            [Request (delete_request (people_url +:+ "/rec1"));
             Sleep (1 # 5);
             Request (delete_request (people_url +:+ "/rec2"));
             Sleep (1 # 5)]).
Proof.
  assert (Hlimit : (0 <= API_LIMIT people)%Q) by (vm_compute; discriminate).
  assert (Hacc : ∀ u data, accepted (ok_response u data) data)
    by (intros u data; split; [left; cbn; lia|done]).
  split.
  - refine (proj1 (proj1 (@batch_calls_paced cpython scripted people "People"
              _ _ [] Hlimit) [John; Marc] false _)).
    repeat (eapply answers_cons; [reflexivity|apply Hacc|]).
    apply answers_nil.
  - refine (proj1 (proj2 (@batch_calls_paced cpython scripted people "People"
              _ _ [] Hlimit) ["rec1"; "rec2"] _)).
    repeat (eapply answers_cons; [reflexivity|apply Hacc|]).
    apply answers_nil.
Defined.

(** C9, as stated, fails when a call fails: the error of the first insert
    ends the batch, and of the two records one only was sent. *)
Lemma batch_insert_stops_at_failure :
  ∃ msg w',
    @batch_insert_in_table cpython scripted people "People" [John; Marc] false
      (@start scripted
         [Ok (error_response 500 "Internal Server Error" people_url
                (JDict [("error", JStr "SERVER_ERROR")]));
              Ok (ok_response people_url (created "rec2" Marc))]) =
      Some (Raise (HTTPError msg), w') ∧
    length (requests (trace w')) = 1 ∧
    length [John; Marc] = 2.
Proof. eexists _, _. split; [vm_compute; reflexivity|done]. Qed.

(** ** Pagination *)

Lemma get_page_eq `{Platform, ParamsModule, Remote} (url : string)
  (offset : json) (options : dict) :
  "offset" ∉ keys options →
  _get_page url offset options = _get url (("offset", offset) :: options).
Proof. intros Hno. unfold _get_page. by rewrite bool_decide_eq_false_2. Qed.

Lemma fetch_page_served `{Platform, ParamsModule, Remote} self table options
  (w : world) offset records cursor s' :
  "offset" ∉ keys options →
  (0 <= API_LIMIT self)%Q →
  serves_page self table options (remote w) offset records cursor s' →
  ∃ rq d,
    page_request self table options offset = Ok rq ∧
    dict_get "offset" d = cursor ∧
    fetch_page self table options offset w =
      Some (Ok (Some (JList records), gen_suspended (JDict d)),
            after w s' [Request rq; Sleep (API_LIMIT self)]).
Proof.
  intros Hno Hlimit (rq & r & d & Hrq & Hs & Hacc & Hrecords & Hcursor).
  exists rq, d. split_and!; [done|done|].
  unfold page_request in Hrq.
  destruct (_process_params (("offset", offset) :: options))
    as [params|e] eqn:Hparams; [|done].
  injection Hrq as <-.
  unfold fetch_page. rewrite get_page_eq by done.
  unfold _get, mbind, M_bind, lift. rewrite Hparams.
  rewrite (request_accepted "get" _ (Some params) None w r s' (JDict d) Hs Hacc).
  cbn [py_get]. rewrite Hrecords, (sleep_eq _ _ Hlimit).
  cbn [mret M_ret remote after]. do 3 f_equal.
  unfold after. cbn [trace remote]. by rewrite <-app_assoc.
Qed.

Lemma get_iter_resumes `{Platform, ParamsModule, Remote} self table options
  (w : world) it offset :
  resumes it offset →
  get_iter_in_table self table options it w =
    fetch_page self table options offset w.
Proof.
  intros [[-> ->]|(d & -> & Hd & Htrue)]; [done|].
  unfold get_iter_in_table, mbind, M_bind, lift. cbn [py_get].
  unfold dict_get_default. by rewrite Hd, Htrue.
Qed.

Lemma get_iter_finishes `{Platform, ParamsModule, Remote} self table options
  (w : world) d :
  dict_get "offset" d = None →
  get_iter_in_table self table options (gen_suspended (JDict d)) w =
    Some (Ok (None, gen_finished), w).
Proof.
  intros Hd. unfold get_iter_in_table, mbind, M_bind, lift. cbn [py_get].
  unfold dict_get_default. by rewrite Hd.
Qed.

Lemma paged_length `{Platform, ParamsModule, Remote} self table options
  s offset pages cursors s' :
  paged self table options s offset pages cursors s' →
  length pages = S (length cursors).
Proof. induction 1; cbn; congruence. Qed.

(** Over a table served in pages the two loops run to the end: one
    collects the pages, the other their records. *)
Lemma paged_loops `{Platform, ParamsModule, Remote} self table options
  s offset pages cursors s' :
  "offset" ∉ keys options →
  (0 <= API_LIMIT self)%Q →
  paged self table options s offset pages cursors s' →
  ∀ fuel it (w : world) acc1 acc2,
    remote w = s → resumes it offset → length pages < fuel →
    ∃ rqs,
      Forall2 (λ o rq, page_request self table options o = Ok rq)
        (offset :: cursors) rqs ∧
      iterate fuel self table options it acc1 w =
        Some (Ok (acc1 ++ (JList <$> pages)),
              after w s' (paced_calls (API_LIMIT self) rqs)) ∧
      get_all_loop fuel self table options it acc2 w =
        Some (Ok (acc2 ++ concat pages),
              after w s' (paced_calls (API_LIMIT self) rqs)).
Proof.
  intros Hno Hlimit Hpaged.
  induction Hpaged as [s offset records s' Hserves
    |s offset records cursor s' pages cursors s'' Hserves Htrue _ IH];
    intros fuel it w acc1 acc2 Hw Hit Hfuel; subst s.
  - destruct (fetch_page_served _ _ _ _ _ _ _ _ Hno Hlimit Hserves)
      as (rq & d & Hrq & Hd & Hfetch).
    exists [rq]. split; [by repeat constructor|].
    destruct fuel as [|[|fuel]]; [cbn in Hfuel; lia..|].
    split.
    + cbn [iterate]. unfold mbind at 1, M_bind at 1.
      rewrite (get_iter_resumes _ _ _ _ _ _ Hit), Hfetch. cbn [fst snd].
      unfold mbind at 1, M_bind at 1.
      by rewrite (get_iter_finishes _ _ _ _ _ Hd).
    + cbn [get_all_loop]. unfold mbind at 1, M_bind at 1.
      rewrite (get_iter_resumes _ _ _ _ _ _ Hit), Hfetch. cbn [fst snd].
      unfold mbind at 1, M_bind at 1, lift at 1. cbn [py_iter].
      unfold mbind at 1, M_bind at 1.
      rewrite (get_iter_finishes _ _ _ _ _ Hd). cbn [concat fst].
      by rewrite app_nil_r.
  - destruct (fetch_page_served _ _ _ _ _ _ _ _ Hno Hlimit Hserves)
      as (rq & d & Hrq & Hd & Hfetch).
    destruct fuel as [|fuel]; [cbn in Hfuel; lia|].
    set (w1 := after w s' [Request rq; Sleep (API_LIMIT self)]) in *.
    destruct (IH fuel (gen_suspended (JDict d)) w1
                (acc1 ++ [JList records]) (acc2 ++ records))
      as (rqs & Hrqs & Hiter & Hall); [done|right; eauto|cbn in Hfuel; lia|].
    exists (rq :: rqs). split; [by constructor|]. split.
    + cbn [iterate]. unfold mbind at 1, M_bind at 1.
      rewrite (get_iter_resumes _ _ _ _ _ _ Hit), Hfetch. cbn [fst snd].
      rewrite Hiter. unfold w1. rewrite after_after, <-app_assoc.
      by rewrite paced_calls_cons.
    + cbn [get_all_loop]. unfold mbind at 1, M_bind at 1.
      rewrite (get_iter_resumes _ _ _ _ _ _ Hit), Hfetch. cbn [fst snd].
      unfold mbind at 1, M_bind at 1, lift at 1. cbn [py_iter].
      rewrite Hall. unfold w1. rewrite after_after, <-app_assoc.
      by rewrite paced_calls_cons.
Qed.

(** C1: when the service gives N pages, each but the last with the cursor
    of the next one and the last with none, the iterator sends one request
    per page, the first with no offset and each later one with the cursor
    just received as its [offset], and pauses after each; iterating it
    yields exactly the N pages in order, and [get_all_in_table] returns
    their concatenation.  [Airtable.get_iter] and [Airtable.get_all] are
    the same at the client's own table. *)
Theorem pagination_yields_all_pages `{Platform, ParamsModule, Remote}
  (fuel : nat) (self : client) (table : string) (options : dict) (w : world)
  (pages : list (list json)) (cursors : list json) (s' : server) :
  "offset" ∉ keys options →
  (0 <= API_LIMIT self)%Q →
  length pages < fuel →
  paged self table options (remote w) JNull pages cursors s' →
  ∃ rqs,
    Forall2 (λ offset rq, page_request self table options offset = Ok rq)
      (JNull :: cursors) rqs ∧
    length pages = S (length cursors) ∧
    iterate fuel self table options gen_created [] w =
      Some (Ok (JList <$> pages),
            after w s' (paced_calls (API_LIMIT self) rqs)) ∧
    get_all_in_table fuel self table options w =
      Some (Ok (concat pages),
            after w s' (paced_calls (API_LIMIT self) rqs)) ∧
    Airtable.get_iter self options =
      get_iter_in_table self (table_name self) options ∧
    (table = table_name self →
     Airtable.get_all fuel self options w =
       Some (Ok (concat pages),
             after w s' (paced_calls (API_LIMIT self) rqs))).
Proof.
  intros Hno Hlimit Hfuel Hpaged.
  destruct (paged_loops _ _ _ _ _ _ _ _ Hno Hlimit Hpaged fuel gen_created w
              [] []) as (rqs & Hrqs & Hiter & Hall);
    [done|by left|done|].
  exists rqs. split_and!; [done|by eapply paged_length|done|done|done|].
  by intros ->.
Qed.

Lemma people_pages_paged (options : dict) :
  options = [] ∨
  options = [("formula", JStr (spec_from_name_and_value "Name" (JStr "John")))] →
  @paged cpython spec_params (paging people_pages) people "People" options
    () JNull
    [[created "rec1" John; created "rec2" Marc]; [created "rec3" John]; []]
    [JStr "itr1"; JStr "itr2"] ().
Proof.
  assert (Hacc : ∀ u data, accepted (ok_response u data) data)
    by (intros u data; split; [left; cbn; lia|done]).
  intros [->| ->].
  all: eapply paged_more;
    [eexists _, _, _; split_and!; [reflexivity|reflexivity|apply Hacc|done..]
    |done|].
  all: eapply paged_more;
    [eexists _, _, _; split_and!; [reflexivity|reflexivity|apply Hacc|done..]
    |done|].
  all: eapply paged_last.
  all: eexists _, _, _; split_and!; [reflexivity|reflexivity|apply Hacc|done..].
Qed.

Lemma pagination_yields_all_pages_witness :
  ∃ w',
    @iterate cpython spec_params (paging people_pages) 4 people "People" []
      gen_created [] (@start (paging people_pages) ()) =
      Some (Ok [JList [created "rec1" John; created "rec2" Marc];
                JList [created "rec3" John]; JList []], w') ∧
    @get_all_in_table cpython spec_params (paging people_pages) 4 people
      "People" [] (@start (paging people_pages) ()) =
      Some (Ok [created "rec1" John; created "rec2" Marc; created "rec3" John],
            w').
Proof.
  destruct (@pagination_yields_all_pages cpython spec_params
              (paging people_pages) 4 people "People" []
              (@start (paging people_pages) ())
              [[created "rec1" John; created "rec2" Marc];
               [created "rec3" John]; []]
              [JStr "itr1"; JStr "itr2"] ())
    as (rqs & _ & _ & Hiter & Hall & _).
  - apply not_elem_of_nil.
  - vm_compute. discriminate.
  - cbn. lia.
  - apply people_pages_paged. by left.
  - eexists. split; [exact Hiter|exact Hall].
Defined.

(** ** Finding a record *)

Lemma offset_not_in_sent (formula : json) (options : dict) :
  "offset" ∉ keys options →
  "offset" ∉ keys (dict_set "formula" formula options).
Proof.
  intros Hno. rewrite keys_dict_set.
  destruct (decide ("formula" ∈ keys options)); [done|].
  rewrite elem_of_app, list_elem_of_singleton. by intros [?|?].
Qed.

(** Over a table served in pages, [match_in_table] reads every page and
    gives the first record of all, or an empty dictionary. *)
Lemma match_in_table_paged `{Platform, ParamsModule, Remote} fuel self table
  field_name field_value options (w : world) pages cursors s' :
  let sent :=
    dict_set "formula" (JStr (from_name_and_value field_name field_value))
      options in
  "offset" ∉ keys options →
  (0 <= API_LIMIT self)%Q →
  length pages < fuel →
  paged self table sent (remote w) JNull pages cursors s' →
  ∃ rqs,
    Forall2 (λ offset rq, page_request self table sent offset = Ok rq)
      (JNull :: cursors) rqs ∧
    match_in_table fuel self table field_name field_value options w =
      Some (Ok (default (JDict []) (head (concat pages))),
            after w s' (paced_calls (API_LIMIT self) rqs)).
Proof.
  intros sent Hno Hlimit Hfuel Hpaged. subst sent.
  destruct (paged_loops _ _ _ _ _ _ _ _ (offset_not_in_sent _ _ Hno) Hlimit
              Hpaged fuel gen_created w [] [])
    as (rqs & Hrqs & _ & Hall); [done|by left|done|].
  exists rqs. split; [done|].
  unfold match_in_table, mbind, M_bind, get_all_in_table.
  rewrite Hall. cbn [app]. by destruct (concat pages).
Qed.

Lemma page_requests_get `{Platform, ParamsModule} self table options offsets
  rqs :
  Forall2 (λ offset rq, page_request self table options offset = Ok rq)
    offsets rqs →
  Forall (λ rq, rq_method rq = "get") rqs.
Proof.
  induction 1 as [|offset rq offsets rqs Hrq _ IH]; constructor; [|done].
  unfold page_request in Hrq.
  destruct (_process_params _); [|done]. by injection Hrq as <-.
Qed.

(** C5: [match_in_table] builds the equality formula from the field name
    and value and passes it as the [formula] option of the listing; over
    a table served in pages it returns the first record of the first page,
    and an empty dictionary when no page holds a record.  [Airtable.match]
    is the same at the client's own table. *)
Theorem match_first_record `{Platform, ParamsModule, Remote}
  (fuel : nat) (self : client) (table field_name : string)
  (field_value : json) (options : dict) (w : world)
  (pages : list (list json)) (cursors : list json) (s' : server) :
  let formula := JStr (from_name_and_value field_name field_value) in
  let sent := dict_set "formula" formula options in
  "offset" ∉ keys options →
  (0 <= API_LIMIT self)%Q →
  length pages < fuel →
  paged self table sent (remote w) JNull pages cursors s' →
  dict_get "formula" sent = Some formula ∧
  ∃ rqs record,
    Forall2 (λ offset rq, page_request self table sent offset = Ok rq)
      (JNull :: cursors) rqs ∧
    match_in_table fuel self table field_name field_value options w =
      Some (Ok record, after w s' (paced_calls (API_LIMIT self) rqs)) ∧
    (table = table_name self →
     Airtable.match_ fuel self field_name field_value options w =
       Some (Ok record, after w s' (paced_calls (API_LIMIT self) rqs))) ∧
    (∀ first rest more, pages = (first :: rest) :: more → record = first) ∧
    (concat pages = [] → record = JDict []).
Proof.
  intros formula sent Hno Hlimit Hfuel Hpaged.
  split; [apply dict_get_dict_set|].
  destruct (match_in_table_paged _ _ _ _ _ _ _ _ _ _ Hno Hlimit Hfuel Hpaged)
    as (rqs & Hrqs & Hmatch).
  exists rqs, (default (JDict []) (head (concat pages))).
  split_and!; [done|done|by intros ->|by intros first rest more ->|].
  by intros ->.
Qed.

Lemma match_first_record_witness :
  ∃ w',
    @match_in_table cpython spec_params (paging people_pages) 4 people
      "People" "Name" (JStr "John") [] (@start (paging people_pages) ()) =
      Some (Ok (created "rec1" John), w').
Proof.
  destruct (@match_first_record cpython spec_params (paging people_pages) 4
              people "People" "Name" (JStr "John") []
              (@start (paging people_pages) ())
              [[created "rec1" John; created "rec2" Marc];
               [created "rec3" John]; []]
              [JStr "itr1"; JStr "itr2"] ())
    as (_ & rqs & record & _ & Hmatch & _ & Hfirst & _).
  - apply not_elem_of_nil.
  - vm_compute. discriminate.
  - cbn. lia.
  - apply people_pages_paged. by right.
  - rewrite (Hfirst _ _ _ eq_refl) in Hmatch. eexists. exact Hmatch.
Defined.

(** ** Operations on the record found *)

(** C2, on the code: when no record matches, [match_in_table] returns an
    empty dictionary, and [delete_by_field_in_table] then looks up ["id"]
    in it and raises [KeyError] without sending a delete. *)
Theorem delete_by_field_no_match `{Platform, ParamsModule, Remote}
  (fuel : nat) (self : client) (table field_name : string)
  (field_value : json) (options : dict) (w : world)
  (pages : list (list json)) (cursors : list json) (s' : server) :
  let sent :=
    dict_set "formula" (JStr (from_name_and_value field_name field_value))
      options in
  "offset" ∉ keys options →
  (0 <= API_LIMIT self)%Q →
  length pages < fuel →
  paged self table sent (remote w) JNull pages cursors s' →
  concat pages = [] →
  ∃ rqs,
    Forall (λ rq, rq_method rq = "get") rqs ∧
    match_in_table fuel self table field_name field_value options w =
      Some (Ok (JDict []), after w s' (paced_calls (API_LIMIT self) rqs)) ∧
    delete_by_field_in_table fuel self table field_name field_value options w =
      Some (Raise (KeyError "id"),
            after w s' (paced_calls (API_LIMIT self) rqs)).
Proof.
  intros sent Hno Hlimit Hfuel Hpaged Hnone.
  destruct (match_in_table_paged _ _ _ _ _ _ _ _ _ _ Hno Hlimit Hfuel Hpaged)
    as (rqs & Hrqs & Hmatch).
  rewrite Hnone in Hmatch. cbn [head default] in Hmatch.
  exists rqs. split_and!; [by eapply page_requests_get|done|].
  unfold delete_by_field_in_table, mbind, M_bind. by rewrite Hmatch.
Qed.

Lemma delete_by_field_no_match_witness :
  ∃ w',
    @Airtable.match_ cpython spec_params (paging no_pages) 2 people "Name"
      (JStr "John") [] (@start (paging no_pages) ()) =
      Some (Ok (JDict []), w') ∧
    @Airtable.delete_by_field cpython spec_params (paging no_pages) 2 people
      "Name" (JStr "John") [] (@start (paging no_pages) ()) =
      Some (Raise (KeyError "id"), w').
Proof.
  destruct (@delete_by_field_no_match cpython spec_params (paging no_pages) 2
              people "People" "Name" (JStr "John") []
              (@start (paging no_pages) ()) [[]] [] ())
    as (rqs & _ & Hmatch & Hdelete).
  - apply not_elem_of_nil.
  - vm_compute. discriminate.
  - cbn. lia.
  - apply paged_last. eexists _, _, _.
    split_and!;
      [reflexivity|reflexivity|split; [left; cbn; lia|done]|done..].
  - done.
  - eexists. split; [exact Hmatch|exact Hdelete].
Defined.

(** C3, on the code: [update_by_field_in_table] returns an empty
    dictionary when no record matches; when one does, the call of
    [self.update] fails, for a client of either class, before any update
    is sent: the only requests made are those of the search. *)
Theorem update_by_field_never_updates `{Platform, ParamsModule, Remote}
  (fuel : nat) (self : client) (table field_name : string)
  (field_value fields : json) (typecast : bool) (options : dict) (w : world)
  (pages : list (list json)) (cursors : list json) (s' : server) :
  let sent :=
    dict_set "formula" (JStr (from_name_and_value field_name field_value))
      options in
  "offset" ∉ keys options →
  (0 <= API_LIMIT self)%Q →
  length pages < fuel →
  paged self table sent (remote w) JNull pages cursors s' →
  ∃ rqs,
    Forall (λ rq, rq_method rq = "get") rqs ∧
    update_by_field_in_table fuel self table field_name field_value fields
      typecast options w =
      Some (match head (concat pages) with
            | None => Ok (JDict [])
            | Some record =>
                if py_bool record then
                  match cls self with
                  | AirtableBase_cls =>
                      Raise (AttributeError "AirtableBase" "update")
                  | Airtable_cls =>
                      match py_getitem record "id" with
                      | Ok _ =>
                          Raise (TypeError
                            "update() takes from 3 to 4 positional arguments but 5 were given")
                      | Raise e => Raise e
                      end
                  end
                else Ok (JDict [])
            end,
            after w s' (paced_calls (API_LIMIT self) rqs)).
Proof.
  intros sent Hno Hlimit Hfuel Hpaged.
  destruct (match_in_table_paged _ _ _ _ _ _ _ _ _ _ Hno Hlimit Hfuel Hpaged)
    as (rqs & Hrqs & Hmatch).
  exists rqs. split; [by eapply page_requests_get|].
  unfold update_by_field_in_table, mbind at 1, M_bind at 1.
  destruct (head (concat pages)) as [record|];
    cbn [default from_option id] in Hmatch; rewrite Hmatch; [|done].
  destruct (py_bool record); cbn [negb]; [|done].
  unfold self_update_4. destruct (cls self); [done|].
  unfold mbind, M_bind, lift, raise, lift.
  by destruct (py_getitem record "id").
Qed.

Lemma update_by_field_never_updates_witness :
  ∃ w',
    @Airtable.update_by_field cpython spec_params (paging people_pages) 4
      people "Name" (JStr "John") (JDict [("Tel", JStr "540-255-5522")]) false
      [] (@start (paging people_pages) ()) =
      Some (Raise (TypeError
              "update() takes from 3 to 4 positional arguments but 5 were given"),
            w') ∧
    Forall (λ rq, rq_method rq = "get") (requests (trace w')).
Proof.
  destruct (@update_by_field_never_updates cpython spec_params
              (paging people_pages) 4 people "People" "Name" (JStr "John")
              (JDict [("Tel", JStr "540-255-5522")]) false []
              (@start (paging people_pages) ())
              [[created "rec1" John; created "rec2" Marc];
               [created "rec3" John]; []]
              [JStr "itr1"; JStr "itr2"] ())
    as (rqs & Hget & Hupdate).
  - apply not_elem_of_nil.
  - vm_compute. discriminate.
  - cbn. lia.
  - apply people_pages_paged. by right.
  - eexists. split; [exact Hupdate|].
    cbn [after trace start app]. by rewrite requests_paced_calls.
Defined.

(** C4, on the code: [mirror_in_table] fails at its first statement, the
    call of [self.get_all], for a client of either class; it lists,
    deletes and inserts nothing.  [Airtable.mirror] fails with it, and so
    does [Airtable.batch_delete], whose [self.batch_delete_in_table] no
    class defines. *)
Theorem mirror_always_raises `{Platform, ParamsModule, Remote}
  (self : client) (table : string) (records : list json) (options : dict)
  (w : world) :
  let no_get_all :=
    match cls self with
    | AirtableBase_cls => AttributeError "AirtableBase" "get_all"
    | Airtable_cls =>
        TypeError "get_all() takes 1 positional argument but 2 were given"
    end in
  mirror_in_table self table records options w = Some (Raise no_get_all, w) ∧
  Airtable.mirror self records options w = Some (Raise no_get_all, w) ∧
  ∀ record_ids,
    Airtable.batch_delete self record_ids w =
      Some (Raise (AttributeError
                     match cls self with
                     | AirtableBase_cls => "AirtableBase"
                     | Airtable_cls => "Airtable"
                     end "batch_delete_in_table"), w).
Proof.
  assert (Hmirror : ∀ t, mirror_in_table self t records options w =
    Some (Raise match cls self with
                | AirtableBase_cls => AttributeError "AirtableBase" "get_all"
                | Airtable_cls =>
                    TypeError
                      "get_all() takes 1 positional argument but 2 were given"
                end, w)).
  { intros t. unfold mirror_in_table, self_get_all_1, mbind, M_bind.
    by destruct (cls self). }
  split_and!; [apply Hmirror|apply Hmirror|].
  intros record_ids. unfold Airtable.batch_delete, self_batch_delete_in_table.
  by destruct (cls self).
Qed.

(** ** The formula of a search *)

Lemma filter_other_names (k : string) (d : dict) :
  k ∉ keys d → filter (λ kv, kv.1 ≠ k) d = d.
Proof.
  unfold keys. induction d as [|[k' v'] d IH]; [done|].
  cbn [fmap list_fmap fst]. rewrite not_elem_of_cons. intros [Hne Hnin].
  rewrite filter_cons_True by (cbn; congruence). by rewrite IH.
Qed.

Lemma dict_set_perm (k : string) (v : json) (d : dict) :
  NoDup (keys d) → dict_set k v d ≡ₚ (k, v) :: filter (λ kv, kv.1 ≠ k) d.
Proof.
  unfold keys. induction d as [|[k' v'] d IH]; [done|].
  cbn [fmap list_fmap fst dict_set]. intros [Hnin Hnd]%NoDup_cons.
  destruct (decide (k = k')) as [->|Hne].
  - rewrite filter_cons_False by (cbn; tauto).
    by rewrite filter_other_names.
  - rewrite filter_cons_True by (cbn; congruence).
    rewrite IH by done. apply Permutation_swap.
Qed.

Lemma NoDup_keys_dict_set (k : string) (v : json) (d : dict) :
  NoDup (keys d) → NoDup (keys (dict_set k v d)).
Proof.
  intros Hnd. rewrite keys_dict_set.
  destruct (decide (k ∈ keys d)); [done|].
  apply NoDup_app. split_and!; [done| |apply NoDup_singleton].
  intros k' Hin ->%list_elem_of_singleton. done.
Qed.

(** Two keyword dictionaries with the same entries make the same request. *)
Lemma get_page_perm `{Platform, ParamsModule, Remote} (url : string)
  (offset : json) (options options' : dict) :
  NoDup (keys options) → options' ≡ₚ options →
  _get_page url offset options' = _get_page url offset options.
Proof.
  intros Hnd Hperm. unfold _get_page.
  assert (Hkeys : keys options' ≡ₚ keys options)
    by (unfold keys; by rewrite Hperm).
  destruct (decide ("offset" ∈ keys options)) as [Hin|Hnin].
  - rewrite !bool_decide_eq_true_2; [done..|]. by rewrite Hkeys.
  - rewrite !bool_decide_eq_false_2; [|done|by rewrite Hkeys].
    unfold _get.
    rewrite (process_params_perm (("offset", offset) :: options)
               (("offset", offset) :: options')); [done| |by constructor].
    unfold keys. cbn [fmap list_fmap fst]. by apply NoDup_cons.
Qed.

Lemma get_iter_agree `{Platform, ParamsModule, Remote} self table
  (options options' : dict) :
  (∀ offset, _get_page (table_url self table) offset options' =
             _get_page (table_url self table) offset options) →
  ∀ it w, get_iter_in_table self table options' it w =
          get_iter_in_table self table options it w.
Proof.
  intros Hpage it w.
  assert (Hfetch : ∀ offset w0, fetch_page self table options' offset w0 =
                                fetch_page self table options offset w0).
  { intros offset w0. unfold fetch_page. by rewrite Hpage. }
  destruct it as [|data|]; [apply Hfetch| |done].
  unfold get_iter_in_table, mbind, M_bind, lift.
  destruct (py_get data "offset" JNull) as [offset|]; [|done].
  destruct (py_bool offset); [apply Hfetch|done].
Qed.

Lemma get_all_agree `{Platform, ParamsModule, Remote} self table
  (options options' : dict) :
  (∀ offset, _get_page (table_url self table) offset options' =
             _get_page (table_url self table) offset options) →
  ∀ fuel w, get_all_in_table fuel self table options' w =
            get_all_in_table fuel self table options w.
Proof.
  intros Hpage fuel. unfold get_all_in_table.
  generalize gen_created. generalize (@nil json).
  induction fuel as [|fuel IH]; intros acc it w; [done|].
  cbn [get_all_loop]. unfold mbind at 1 3, M_bind at 1 3.
  rewrite (get_iter_agree _ _ _ _ Hpage).
  destruct (get_iter_in_table self table options it w)
    as [[[[[records|] it']|e] w']|]; [|done..].
  cbn [fst snd]. unfold mbind, M_bind, lift.
  destruct (py_iter records); [apply IH|done].
Qed.

(** C10: the searches put the formula built from the field name and value
    under [formula] in the options they pass on, whatever the caller gave
    there: two calls whose options differ in the caller's [formula] only
    behave the same, in their result and in the requests they send.  This
    holds for [match_in_table] and [search_in_table] and for the update,
    replace and delete operations built on them. *)
Theorem formula_option_overwritten `{Platform, ParamsModule, Remote}
  (fuel : nat) (self : client) (table field_name : string)
  (field_value : json) (options options' : dict) :
  let formula := JStr (from_name_and_value field_name field_value) in
  NoDup (keys options) →
  NoDup (keys options') →
  filter (λ kv, kv.1 ≠ "formula") options' ≡ₚ
    filter (λ kv, kv.1 ≠ "formula") options →
  dict_get "formula" (dict_set "formula" formula options) = Some formula ∧
  ∀ w,
    search_in_table fuel self table field_name field_value options w =
      get_all_in_table fuel self table (dict_set "formula" formula options) w ∧
    search_in_table fuel self table field_name field_value options' w =
      search_in_table fuel self table field_name field_value options w ∧
    match_in_table fuel self table field_name field_value options' w =
      match_in_table fuel self table field_name field_value options w ∧
    (∀ fields typecast,
       update_by_field_in_table fuel self table field_name field_value fields
         typecast options' w =
       update_by_field_in_table fuel self table field_name field_value fields
         typecast options w) ∧
    (∀ fields typecast,
       replace_by_field_in_table fuel self table field_name field_value fields
         typecast options' w =
       replace_by_field_in_table fuel self table field_name field_value fields
         typecast options w) ∧
    delete_by_field_in_table fuel self table field_name field_value options' w =
      delete_by_field_in_table fuel self table field_name field_value options w.
Proof.
  intros formula Hnd Hnd' Hperm.
  split; [apply dict_get_dict_set|]. intros w.
  assert (Hpage : ∀ offset,
    _get_page (table_url self table) offset
      (dict_set "formula" formula options') =
    _get_page (table_url self table) offset
      (dict_set "formula" formula options)).
  { intros offset. apply get_page_perm; [by apply NoDup_keys_dict_set|].
    by rewrite !dict_set_perm, Hperm by done. }
  assert (Hall := get_all_agree _ _ _ _ Hpage fuel).
  assert (Hmatch : ∀ w0,
    match_in_table fuel self table field_name field_value options' w0 =
    match_in_table fuel self table field_name field_value options w0).
  { intros w0. unfold match_in_table, mbind, M_bind. fold formula.
    by rewrite Hall. }
  split_and!; [done|apply Hall|apply Hmatch|..].
  - intros fields typecast. unfold update_by_field_in_table, mbind, M_bind.
    by rewrite Hmatch.
  - intros fields typecast. unfold replace_by_field_in_table.
    unfold mbind at 1 3, M_bind at 1 3. by rewrite Hmatch.
  - unfold delete_by_field_in_table.
    unfold mbind at 1 4, M_bind at 1 4. by rewrite Hmatch.
Qed.

Lemma formula_option_overwritten_witness :
  @match_in_table cpython spec_params (paging people_pages) 4 people
    "People" "Name" (JStr "John") options_with_formula
    (@start (paging people_pages) ()) =
  @match_in_table cpython spec_params (paging people_pages) 4 people
    "People" "Name" (JStr "John") options_without_formula
    (@start (paging people_pages) ()).
Proof.
  refine (proj1 (proj2 (proj2 (proj2
    (@formula_option_overwritten cpython spec_params (paging people_pages) 4
       people "People" "Name" (JStr "John") options_without_formula
       options_with_formula _ _ _) (@start (paging people_pages) ()))))).
  - apply (bool_decide_unpack _). vm_compute. exact I.
  - apply (bool_decide_unpack _). vm_compute. exact I.
  - done.
Defined.

(** * Further properties of the code *)

(** ** How a response is read *)

Lemma raise_for_status_error (r : response) :
  (400 <= status_code r < 600)%Z →
  ∃ msg, raise_for_status r = Raise (HTTPError msg).
Proof.
  intros Hstatus. unfold raise_for_status.
  destruct ((400 <=? status_code r)%Z && (status_code r <? 500)%Z) eqn:H4;
    [by eexists|].
  replace ((500 <=? status_code r)%Z && (status_code r <? 600)%Z) with true;
    [by eexists|].
  symmetry. apply andb_false_iff in H4.
  apply andb_true_iff. lia.
Qed.

Lemma process_response_error (r : response) `{Platform} :
  (400 <= status_code r < 600)%Z →
  ∃ msg, _process_response r =
           (err_msg ← error_message r msg; Raise (HTTPError err_msg)).
Proof.
  intros Hstatus. destruct (raise_for_status_error r Hstatus) as [msg Hmsg].
  exists msg. unfold _process_response. by rewrite Hmsg.
Qed.

(** X1: A response with a client or server error status never gives data: the
    call raises.  When the content is not JSON, or is a JSON object, what
    is raised is an [HTTPError]. *)
Theorem error_status_never_returns `{Platform} (r : response) :
  (400 <= status_code r < 600)%Z →
  (∃ e, _process_response r = Raise e) ∧
  (body r = None ∨ (∃ d, body r = Some (JDict d)) →
   ∃ msg, _process_response r = Raise (HTTPError msg)).
Proof.
  intros Hstatus.
  destruct (process_response_error r Hstatus) as [msg ->].
  split.
  - unfold mbind, result_bind. destruct (error_message r msg); by eexists.
  - unfold error_message, response_json.
    intros [Hbody|[d Hbody]]; rewrite Hbody; [by eexists|].
    cbn [contains_error_key mbind result_bind].
    destruct (dict_get "error" d) as [detail|] eqn:Hd.
    + rewrite bool_decide_eq_true_2 by eauto.
      cbn [py_getitem]. rewrite Hd. by eexists.
    + rewrite bool_decide_eq_false_2 by (by intros [? ?]). by eexists.
Qed.

Lemma error_status_never_returns_witness :
  ∃ msg, @_process_response cpython server_error = Raise (HTTPError msg).
Proof.
  refine (proj2 (@error_status_never_returns cpython server_error _) _).
  - cbn. lia.
  - right. by eexists.
Defined.

Lemma existsb_error_entry (l : list json) :
  JStr "error" ∈ l →
  existsb (λ v, match v with JStr s => String.eqb s "error" | _ => false end)
    l = true.
Proof.
  intros Hin. apply existsb_exists. exists (JStr "error").
  split; [by apply list_elem_of_In|done].
Qed.

(** X2: With an error status, a JSON content that is [null], a boolean or a
    number, a list that holds the string ["error"], or a string that
    holds ["error"], makes the call raise [TypeError]: the membership test
    or the lookup of the error detail fails, and the HTTP error is lost. *)
Theorem error_content_masks_http_error `{Platform} (r : response) (j : json) :
  (400 <= status_code r < 600)%Z →
  body r = Some j →
  j = JNull ∨ (∃ b, j = JBool b) ∨ (∃ z, j = JInt z) ∨ (∃ q, j = JFloat q) ∨
  (∃ l, j = JList l ∧ JStr "error" ∈ l) ∨
  (∃ s, j = JStr s ∧ substr_in "error" s = true) →
  ∃ msg, _process_response r = Raise (TypeError msg).
Proof.
  intros Hstatus Hbody Hj.
  destruct (process_response_error r Hstatus) as [msg ->].
  unfold error_message, response_json. rewrite Hbody.
  destruct Hj as [->|[[b ->]|[[z ->]|[[q ->]|[(l & -> & Hl)|(s & -> & Hs)]]]]];
    cbn [contains_error_key mbind result_bind]; try by eexists.
  - rewrite (existsb_error_entry l Hl). by eexists.
  - rewrite Hs. by eexists.
Qed.

Lemma error_content_masks_http_error_witness :
  ∃ msg,
    @_process_response cpython
      (error_response 500 "Internal Server Error" people_url JNull) =
      Raise (TypeError msg).
Proof.
  refine (@error_content_masks_http_error cpython
            (error_response 500 "Internal Server Error" people_url JNull)
            JNull _ eq_refl _).
  - cbn. lia.
  - by left.
Defined.

(** X3: With any other status the call returns the JSON content as it is, and
    raises [JSONDecodeError] when the content is not JSON. *)
Theorem other_status_returns_content `{Platform} (r : response) :
  (status_code r < 400 ∨ 600 <= status_code r)%Z →
  _process_response r =
    match body r with
    | Some data => Ok data
    | None => Raise JSONDecodeError
    end.
Proof.
  intros Hstatus. unfold _process_response, raise_for_status.
  replace ((400 <=? status_code r)%Z && (status_code r <? 500)%Z) with false
    by (symmetry; apply andb_false_iff; lia).
  replace ((500 <=? status_code r)%Z && (status_code r <? 600)%Z) with false
    by (symmetry; apply andb_false_iff; lia).
  done.
Qed.

Lemma other_status_returns_content_witness :
  @_process_response cpython
    {| status_code := 204; reason := "No Content"; url := people_url;
       body := None |} = Raise JSONDecodeError.
Proof.
  refine (@other_status_returns_content cpython
            {| status_code := 204; reason := "No Content"; url := people_url;
               body := None |} _).
  left. cbn. lia.
Defined.

(** ** Calls on one record *)

Lemma request_sends_once `{Platform, Remote} method u params json_data
  (w : world) :
  let rq := {| rq_method := method; rq_url := u; rq_params := params;
               rq_json := json_data |} in
  _request method u params json_data w =
    Some (processed (session_request (remote w) rq).1,
          after w (session_request (remote w) rq).2 [Request rq]).
Proof.
  intros rq. subst rq. unfold _request, mbind, M_bind, send, processed, lift.
  by destruct (session_request _ _) as [[r|e] s'].
Qed.

(** X4: Reading, inserting, updating, replacing and deleting one record each
    send exactly one request and never pause, whatever the service
    answers: a GET with no parameter, a POST to the table, a PATCH, a PUT
    and a DELETE at the address of the record, the writes with the fields
    and the typecast flag as content.  The result is what
    [_process_response] makes of the answer; nothing is tried again. *)
Theorem single_record_calls_send_once `{Platform, ParamsModule, Remote}
  (self : client) (table record_id : string) (fields : json)
  (typecast : bool) (w : world) :
  let address := posixpath_join (table_url self table) record_id in
  let content := write_payload fields typecast in
  let call rq :=
    Some (processed (session_request (remote w) rq).1,
          after w (session_request (remote w) rq).2 [Request rq]) in
  get_in_table self table (JStr record_id) w =
    call (get_request address []) ∧
  insert_in_table self table fields typecast w =
    call (post_request (table_url self table) content) ∧
  update_in_table self table (JStr record_id) fields typecast w =
    call (patch_request address content) ∧
  replace_in_table self table (JStr record_id) fields typecast w =
    call (put_request address content) ∧
  delete_in_table self table (JStr record_id) w =
    call (delete_request address).
Proof.
  intros address content call. subst call. cbv beta.
  split_and!.
  - unfold get_in_table, record_table_url, mbind at 1, M_bind at 1, lift.
    unfold _get, mbind, M_bind, lift.
    change (_process_params []) with (Ok ([] : dict)).
    apply (request_sends_once "get").
  - apply (request_sends_once "post").
  - apply (request_sends_once "patch").
  - apply (request_sends_once "put").
  - apply (request_sends_once "delete").
Qed.

(** X5: A record id that is not a string is refused by the construction of
    the address: the call raises [TypeError] and sends nothing. *)
Theorem non_string_record_id_sends_nothing `{Platform, ParamsModule, Remote}
  (self : client) (table : string) (record_id fields : json)
  (typecast : bool) (w : world) :
  (∀ s, record_id ≠ JStr s) →
  ∃ msg,
    get_in_table self table record_id w = Some (Raise (TypeError msg), w) ∧
    update_in_table self table record_id fields typecast w =
      Some (Raise (TypeError msg), w) ∧
    replace_in_table self table record_id fields typecast w =
      Some (Raise (TypeError msg), w) ∧
    delete_in_table self table record_id w = Some (Raise (TypeError msg), w).
Proof.
  intros Hid. eexists.
  unfold get_in_table, update_in_table, replace_in_table, delete_in_table,
    record_table_url, mbind, M_bind, lift.
  destruct record_id as [| | | |s| |]; try done. by destruct (Hid s).
Qed.

Lemma non_string_record_id_sends_nothing_witness :
  ∃ msg,
    @delete_in_table cpython scripted people "People" (JInt 7)
      (@start scripted [Ok (ok_response people_url (deleted "7"))]) =
      Some (Raise (TypeError msg),
            @start scripted [Ok (ok_response people_url (deleted "7"))]).
Proof.
  destruct (@non_string_record_id_sends_nothing cpython spec_params scripted
              people "People" (JInt 7) JNull false
              (@start scripted [Ok (ok_response people_url (deleted "7"))]))
    as (msg & _ & _ & _ & Hdelete); [done|].
  exists msg. exact Hdelete.
Defined.

Lemma startswith_slash (s : string) : startswith (String "/" s) "/" = true.
Proof. unfold startswith. cbn. by destruct s. Qed.

(** X6: The address of a record: the two builders of the module agree for a
    client of [Airtable]; the table name goes through [quote], the record
    id does not, and an id that starts with [/] replaces the whole
    address, base and table included. *)
Theorem record_address `{Platform} (base_key table record_id : string) :
  record_table_url (Airtable_init base_key table) table (JStr record_id) =
    Ok (record_url base_key table record_id) ∧
  table_url (Airtable_init base_key table) table = url_table base_key table ∧
  ∀ (self : client) rest,
    record_table_url self table (JStr (String "/" rest)) =
      Ok (String "/" rest).
Proof.
  split_and!; [done|done|]. intros self rest.
  unfold record_table_url, posixpath_join. by rewrite startswith_slash.
Qed.

(** ** Replacing and deleting the record found *)

Lemma getitem_truthy (record : json) (key : string) (v : json) :
  py_getitem record key = Ok v → py_bool record = true.
Proof.
  destruct record as [| | | | | |d]; try done.
  by destruct d.
Qed.

Lemma found_record `{Platform, ParamsModule, Remote} fuel self table
  field_name field_value options (w : world) pages cursors s' :
  let sent :=
    dict_set "formula" (JStr (from_name_and_value field_name field_value))
      options in
  "offset" ∉ keys options →
  (0 <= API_LIMIT self)%Q →
  length pages < fuel →
  paged self table sent (remote w) JNull pages cursors s' →
  ∃ rqs,
    Forall2 (λ offset rq, page_request self table sent offset = Ok rq)
      (JNull :: cursors) rqs ∧
    Forall (λ rq, rq_method rq = "get") rqs ∧
    length rqs = length pages ∧
    match_in_table fuel self table field_name field_value options w =
      Some (Ok (default (JDict []) (head (concat pages))),
            after w s' (paced_calls (API_LIMIT self) rqs)).
Proof.
  intros sent Hno Hlimit Hfuel Hpaged.
  destruct (match_in_table_paged _ _ _ _ _ _ _ _ _ _ Hno Hlimit Hfuel Hpaged)
    as (rqs & Hrqs & Hmatch).
  exists rqs. split_and!; [done|by eapply page_requests_get| |done].
  apply Forall2_length in Hrqs. rewrite <-Hrqs.
  by rewrite (paged_length _ _ _ _ _ _ _ _ Hpaged).
Qed.

(** X7: [replace_by_field_in_table] searches, then replaces the first record
    found: after the GETs of the listing, one per page, it sends one PUT
    at the address of that record's id, with the fields and the typecast
    flag, and returns what the service answers to it.  When nothing is
    found it returns an empty dictionary and sends no PUT. *)
Theorem replace_by_field_puts_found_record `{Platform, ParamsModule, Remote}
  (fuel : nat) (self : client) (table field_name : string)
  (field_value fields : json) (typecast : bool) (options : dict) (w : world)
  (pages : list (list json)) (cursors : list json) (s' : server) :
  let sent :=
    dict_set "formula" (JStr (from_name_and_value field_name field_value))
      options in
  "offset" ∉ keys options →
  (0 <= API_LIMIT self)%Q →
  length pages < fuel →
  paged self table sent (remote w) JNull pages cursors s' →
  ∃ rqs,
    Forall2 (λ offset rq, page_request self table sent offset = Ok rq)
      (JNull :: cursors) rqs ∧
    Forall (λ rq, rq_method rq = "get") rqs ∧
    length rqs = length pages ∧
    (concat pages = [] →
     replace_by_field_in_table fuel self table field_name field_value fields
       typecast options w =
       Some (Ok (JDict []), after w s' (paced_calls (API_LIMIT self) rqs))) ∧
    (∀ record more record_id,
       concat pages = record :: more →
       py_getitem record "id" = Ok (JStr record_id) →
       let put :=
         put_request (posixpath_join (table_url self table) record_id)
           (write_payload fields typecast) in
       replace_by_field_in_table fuel self table field_name field_value fields
         typecast options w =
         Some (processed (session_request s' put).1,
               after w (session_request s' put).2
                 (paced_calls (API_LIMIT self) rqs ++ [Request put]))).
Proof.
  intros sent Hno Hlimit Hfuel Hpaged.
  destruct (found_record _ _ _ _ _ _ _ _ _ _ Hno Hlimit Hfuel Hpaged)
    as (rqs & Hrqs & Hget & Hlen & Hmatch).
  exists rqs. split_and!; [done|done|done| |].
  - intros Hnone. rewrite Hnone in Hmatch.
    unfold replace_by_field_in_table, mbind at 1, M_bind at 1.
    by rewrite Hmatch.
  - intros record more record_id Hsome Hid put. rewrite Hsome in Hmatch.
    cbn [head default from_option id] in Hmatch.
    unfold replace_by_field_in_table, mbind at 1, M_bind at 1.
    rewrite Hmatch, (getitem_truthy _ _ _ Hid). cbn [negb].
    unfold mbind at 1, M_bind at 1, lift at 1. rewrite Hid.
    unfold replace_in_table, record_table_url, mbind, M_bind, lift, _put.
    rewrite (request_sends_once "put"). cbn [remote after].
    by rewrite after_after.
Qed.

Lemma replace_by_field_puts_found_record_witness :
  ∃ rq,
    @replace_by_field_in_table cpython spec_params scripted 2 people "People"
      "Name" (JStr "John") Marc false []
      (@start scripted [Ok (ok_response people_url one_page);
                        Ok (ok_response people_url (created "rec1" Marc))]) =
      Some (Ok (created "rec1" Marc),
            @Build_world scripted []
              [Request rq; Sleep (1 # 5);
               Request (put_request (people_url +:+ "/rec1")
                          (write_payload Marc false))]).
Proof.
  destruct (@replace_by_field_puts_found_record cpython spec_params scripted
              2 people "People" "Name" (JStr "John") Marc false []
              (@start scripted
                 [Ok (ok_response people_url one_page);
                  Ok (ok_response people_url (created "rec1" Marc))])
              [[created "rec1" John]] []
              [Ok (ok_response people_url (created "rec1" Marc))])
    as (rqs & Hrqs & _ & _ & _ & Hput).
  - apply not_elem_of_nil.
  - vm_compute. discriminate.
  - cbn. lia.
  - apply paged_last. eexists _, _, _.
    split_and!;
      [reflexivity|reflexivity|split; [left; cbn; lia|done]|done..].
  - apply Forall2_cons_inv_l in Hrqs as (rq & rqs' & _ & Hnil & ->).
    apply Forall2_nil_inv_l in Hnil as ->.
    exists rq. exact (Hput _ _ "rec1" eq_refl eq_refl).
Defined.

(** X8: [delete_by_field_in_table] searches, then deletes the first record
    found: after the GETs of the listing it sends one DELETE at the
    address of that record's id and returns what the service answers. *)
Theorem delete_by_field_deletes_found_record
  `{Platform, ParamsModule, Remote}
  (fuel : nat) (self : client) (table field_name : string)
  (field_value : json) (options : dict) (w : world)
  (pages : list (list json)) (cursors : list json) (s' : server)
  (record : json) (more : list json) (record_id : string) :
  let sent :=
    dict_set "formula" (JStr (from_name_and_value field_name field_value))
      options in
  let delete :=
    delete_request (posixpath_join (table_url self table) record_id) in
  "offset" ∉ keys options →
  (0 <= API_LIMIT self)%Q →
  length pages < fuel →
  paged self table sent (remote w) JNull pages cursors s' →
  concat pages = record :: more →
  py_getitem record "id" = Ok (JStr record_id) →
  ∃ rqs,
    Forall2 (λ offset rq, page_request self table sent offset = Ok rq)
      (JNull :: cursors) rqs ∧
    Forall (λ rq, rq_method rq = "get") rqs ∧
    length rqs = length pages ∧
    delete_by_field_in_table fuel self table field_name field_value options w =
      Some (processed (session_request s' delete).1,
            after w (session_request s' delete).2
              (paced_calls (API_LIMIT self) rqs ++ [Request delete])).
Proof.
  intros sent delete Hno Hlimit Hfuel Hpaged Hsome Hid.
  destruct (found_record _ _ _ _ _ _ _ _ _ _ Hno Hlimit Hfuel Hpaged)
    as (rqs & Hrqs & Hget & Hlen & Hmatch).
  exists rqs. split_and!; [done|done|done|].
  rewrite Hsome in Hmatch. cbn [head default from_option id] in Hmatch.
  unfold delete_by_field_in_table, mbind at 1, M_bind at 1.
  rewrite Hmatch. unfold mbind at 1, M_bind at 1, lift at 1. rewrite Hid.
  unfold record_table_url, mbind, M_bind, lift, _delete.
  rewrite (request_sends_once "delete"). cbn [remote after].
  by rewrite after_after.
Qed.

Lemma delete_by_field_deletes_found_record_witness :
  ∃ rq,
    @delete_by_field_in_table cpython spec_params scripted 2 people "People"
      "Name" (JStr "John") []
      (@start scripted [Ok (ok_response people_url one_page);
                        Ok (ok_response people_url (deleted "rec1"))]) =
      Some (Ok (deleted "rec1"),
            @Build_world scripted []
              [Request rq; Sleep (1 # 5);
               Request (delete_request (people_url +:+ "/rec1"))]).
Proof.
  destruct (@delete_by_field_deletes_found_record cpython spec_params scripted
              2 people "People" "Name" (JStr "John") []
              (@start scripted
                 [Ok (ok_response people_url one_page);
                  Ok (ok_response people_url (deleted "rec1"))])
              [[created "rec1" John]] []
              [Ok (ok_response people_url (deleted "rec1"))]
              (created "rec1" John) [] "rec1")
    as (rqs & Hrqs & _ & _ & Hdelete).
  - apply not_elem_of_nil.
  - vm_compute. discriminate.
  - cbn. lia.
  - apply paged_last. eexists _, _, _.
    split_and!;
      [reflexivity|reflexivity|split; [left; cbn; lia|done]|done..].
  - done.
  - done.
  - apply Forall2_cons_inv_l in Hrqs as (rq & rqs' & _ & Hnil & ->).
    apply Forall2_nil_inv_l in Hnil as ->.
    exists rq. exact Hdelete.
Defined.

(** ** Edges of the listing *)

Lemma offset_in_sent (formula : json) (options : dict) :
  "offset" ∈ keys options →
  "offset" ∈ keys (dict_set "formula" formula options).
Proof.
  intros Hin. rewrite keys_dict_set.
  destruct (decide ("formula" ∈ keys options)); [done|].
  apply elem_of_app. by left.
Qed.

(** X9: The caller cannot pass an [offset] of its own: the listing, and the
    searches built on it, raise [TypeError] at the first turn, before any
    request is sent. *)
Theorem caller_offset_rejected `{Platform, ParamsModule, Remote}
  (fuel : nat) (self : client) (table field_name : string)
  (field_value : json) (options : dict) (w : world) :
  "offset" ∈ keys options →
  ∃ msg,
    get_iter_in_table self table options gen_created w =
      Some (Raise (TypeError msg), w) ∧
    get_all_in_table (S fuel) self table options w =
      Some (Raise (TypeError msg), w) ∧
    search_in_table (S fuel) self table field_name field_value options w =
      Some (Raise (TypeError msg), w) ∧
    match_in_table (S fuel) self table field_name field_value options w =
      Some (Raise (TypeError msg), w).
Proof.
  intros Hin. eexists.
  assert (Hstep : ∀ opts, "offset" ∈ keys opts →
    get_iter_in_table self table opts gen_created w =
      Some (Raise (TypeError
              "got multiple values for keyword argument 'offset'"), w)).
  { intros opts Hopts.
    unfold get_iter_in_table, fetch_page, _get_page, mbind, M_bind.
    by rewrite bool_decide_eq_true_2. }
  assert (Hall : ∀ opts, "offset" ∈ keys opts →
    get_all_in_table (S fuel) self table opts w =
      Some (Raise (TypeError
              "got multiple values for keyword argument 'offset'"), w)).
  { intros opts Hopts. unfold get_all_in_table. cbn [get_all_loop].
    unfold mbind at 1, M_bind at 1. by rewrite Hstep. }
  split_and!; [by apply Hstep|by apply Hall|..].
  - unfold search_in_table. by apply Hall, offset_in_sent.
  - unfold match_in_table, mbind, M_bind.
    by rewrite Hall by by apply offset_in_sent.
Qed.

Lemma caller_offset_rejected_witness :
  ∃ msg,
    @get_all_in_table cpython spec_params (paging people_pages) 4 people
      "People" [("offset", JStr "itr1")] (@start (paging people_pages) ()) =
      Some (Raise (TypeError msg), @start (paging people_pages) ()).
Proof.
  destruct (@caller_offset_rejected cpython spec_params (paging people_pages)
              3 people "People" "Name" JNull [("offset", JStr "itr1")]
              (@start (paging people_pages) ()))
    as (msg & _ & Hall & _).
  - apply elem_of_cons. by left.
  - exists msg. exact Hall.
Defined.

Lemma get_iter_stops `{Platform, ParamsModule, Remote} self table options
  (w : world) d :
  py_bool (dict_get_default "offset" JNull d) = false →
  get_iter_in_table self table options (gen_suspended (JDict d)) w =
    Some (Ok (None, gen_finished), w).
Proof.
  intros Hd. unfold get_iter_in_table, mbind, M_bind, lift. cbn [py_get].
  by rewrite Hd.
Qed.

(** X10: A cursor that is there but counts as false (an empty string, [null],
    zero, [false], an empty list or object) ends the listing like a
    missing one: the page that carries it is the last one asked for. *)
Theorem false_cursor_ends_listing `{Platform, ParamsModule, Remote}
  (fuel : nat) (self : client) (table : string) (options : dict) (w : world)
  (records : list json) (cursor : json) (s' : server) :
  "offset" ∉ keys options →
  (0 <= API_LIMIT self)%Q →
  serves_page self table options (remote w) JNull records (Some cursor) s' →
  py_bool cursor = false →
  ∃ rq,
    page_request self table options JNull = Ok rq ∧
    iterate (S (S fuel)) self table options gen_created [] w =
      Some (Ok [JList records],
            after w s' [Request rq; Sleep (API_LIMIT self)]) ∧
    get_all_in_table (S (S fuel)) self table options w =
      Some (Ok records, after w s' [Request rq; Sleep (API_LIMIT self)]).
Proof.
  intros Hno Hlimit Hserves Hfalse.
  destruct (fetch_page_served _ _ _ _ _ _ _ _ Hno Hlimit Hserves)
    as (rq & d & Hrq & Hd & Hfetch).
  assert (Hstop : py_bool (dict_get_default "offset" JNull d) = false)
    by (unfold dict_get_default; by rewrite Hd).
  exists rq. split_and!; [done| |].
  - cbn [iterate]. unfold mbind at 1, M_bind at 1.
    cbn [get_iter_in_table]. rewrite Hfetch. cbn [fst snd].
    unfold mbind at 1, M_bind at 1.
    by rewrite (get_iter_stops _ _ _ _ _ Hstop).
  - unfold get_all_in_table. cbn [get_all_loop].
    unfold mbind at 1, M_bind at 1.
    cbn [get_iter_in_table]. rewrite Hfetch. cbn [fst snd].
    unfold mbind at 1, M_bind at 1, lift at 1. cbn [py_iter].
    unfold mbind at 1, M_bind at 1.
    by rewrite (get_iter_stops _ _ _ _ _ Hstop).
Qed.

Lemma false_cursor_ends_listing_witness :
  ∃ w',
    @get_all_in_table cpython spec_params scripted 2 people "People" []
      (@start scripted
         [Ok (ok_response people_url page_with_empty_cursor);
          Ok (ok_response people_url one_page)]) =
      Some (Ok [created "rec1" John], w') ∧
    length (requests (trace w')) = 1.
Proof.
  destruct (@false_cursor_ends_listing cpython spec_params scripted 0 people
              "People" []
              (@start scripted
                 [Ok (ok_response people_url page_with_empty_cursor);
                  Ok (ok_response people_url one_page)])
              [created "rec1" John] (JStr "")
              [Ok (ok_response people_url one_page)])
    as (rq & _ & _ & Hall).
  - apply not_elem_of_nil.
  - vm_compute. discriminate.
  - eexists _, _, _.
    split_and!;
      [reflexivity|reflexivity|split; [left; cbn; lia|done]|done..].
  - done.
  - eexists. split; [exact Hall|done].
Defined.

Lemma after_same `{Remote} (w : world) (s : server) :
  remote w = s → after w s [] = w.
Proof. intros <-. apply after_nil. Qed.

(** Over the first pages of a listing both loops go on from where the
    pages end, with the turns those pages took used up. *)
Lemma prefix_loops `{Platform, ParamsModule, Remote} self table options
  s offset pages s1 next :
  "offset" ∉ keys options →
  (0 <= API_LIMIT self)%Q →
  paged_prefix self table options s offset pages s1 next →
  ∀ it (w : world),
    remote w = s → resumes it offset →
    ∃ rqs it',
      length rqs = length pages ∧
      Forall (λ rq, rq_method rq = "get") rqs ∧
      resumes it' next ∧
      ∀ fuel acc1 acc2,
        iterate (length pages + fuel) self table options it acc1 w =
          iterate fuel self table options it' (acc1 ++ (JList <$> pages))
            (after w s1 (paced_calls (API_LIMIT self) rqs)) ∧
        get_all_loop (length pages + fuel) self table options it acc2 w =
          get_all_loop fuel self table options it' (acc2 ++ concat pages)
            (after w s1 (paced_calls (API_LIMIT self) rqs)).
Proof.
  intros Hno Hlimit Hprefix.
  induction Hprefix as [s offset
    |s offset records cursor s' pages s'' next Hserves Htrue _ IH];
    intros it w Hw Hit.
  - exists [], it. split_and!; [done|constructor|done|].
    intros fuel acc1 acc2. cbn [length plus fmap list_fmap concat].
    change (paced_calls (API_LIMIT self) []) with (@nil event).
    by rewrite !app_nil_r, (after_same _ _ Hw).
  - subst s.
    destruct (fetch_page_served _ _ _ _ _ _ _ _ Hno Hlimit Hserves)
      as (rq & d & Hrq & Hd & Hfetch).
    set (w1 := after w s' [Request rq; Sleep (API_LIMIT self)]) in *.
    destruct (IH (gen_suspended (JDict d)) w1) as (rqs & it' & Hlen & Hget
      & Hit' & Hloops); [done|right; eauto|].
    exists (rq :: rqs), it'. split_and!; [cbn; by rewrite Hlen| |done|].
    { constructor; [|done]. unfold page_request in Hrq.
      destruct (_process_params _); [|done]. by injection Hrq as <-. }
    intros fuel acc1 acc2.
    destruct (Hloops fuel (acc1 ++ [JList records]) (acc2 ++ records))
      as [Hiter Hall].
    cbn [length plus fmap list_fmap concat]. split.
    + cbn [iterate]. unfold mbind at 1, M_bind at 1.
      rewrite (get_iter_resumes _ _ _ _ _ _ Hit), Hfetch. cbn [fst snd].
      rewrite Hiter. unfold w1.
      by rewrite after_after, <-!app_assoc, paced_calls_cons.
    + cbn [get_all_loop]. unfold mbind at 1, M_bind at 1.
      rewrite (get_iter_resumes _ _ _ _ _ _ Hit), Hfetch. cbn [fst snd].
      unfold mbind at 1, M_bind at 1, lift at 1. cbn [py_iter].
      rewrite Hall. unfold w1.
      by rewrite after_after, <-!app_assoc, paced_calls_cons.
Qed.

Lemma fetch_page_fails `{Platform, ParamsModule, Remote} self table options
  (w : world) offset rq e :
  "offset" ∉ keys options →
  page_request self table options offset = Ok rq →
  processed (session_request (remote w) rq).1 = Raise e →
  fetch_page self table options offset w =
    Some (Raise e, after w (session_request (remote w) rq).2 [Request rq]).
Proof.
  intros Hno Hrq He. unfold page_request in Hrq.
  destruct (_process_params (("offset", offset) :: options))
    as [params|] eqn:Hparams; [|done].
  injection Hrq as <-.
  unfold fetch_page. rewrite get_page_eq by done.
  unfold _get, mbind, M_bind, lift. rewrite Hparams.
  rewrite (request_sends_once "get"). fold (get_request (table_url self table) params).
  by rewrite He.
Qed.

(** X11: A listing that fails on a later page gives nothing: when the service
    has given the first pages and the request for the next one fails (the
    transport raises, the status is an error, the content is not JSON),
    [get_all_in_table] raises that error and the records of the pages
    already read are lost.  The failing request is the last thing done: no
    pause follows it and nothing is tried again. *)
Theorem listing_fails_on_later_page `{Platform, ParamsModule, Remote}
  (fuel : nat) (self : client) (table : string) (options : dict) (w : world)
  (pages : list (list json)) (s1 : server) (next : json) (rq : request)
  (e : exn) :
  "offset" ∉ keys options →
  (0 <= API_LIMIT self)%Q →
  length pages < fuel →
  paged_prefix self table options (remote w) JNull pages s1 next →
  page_request self table options next = Ok rq →
  processed (session_request s1 rq).1 = Raise e →
  ∃ rqs,
    length rqs = length pages ∧
    Forall (λ rq, rq_method rq = "get") rqs ∧
    get_all_in_table fuel self table options w =
      Some (Raise e,
            after w (session_request s1 rq).2
              (paced_calls (API_LIMIT self) rqs ++ [Request rq])) ∧
    iterate fuel self table options gen_created [] w =
      Some (Raise e,
            after w (session_request s1 rq).2
              (paced_calls (API_LIMIT self) rqs ++ [Request rq])).
Proof.
  intros Hno Hlimit Hfuel Hprefix Hrq He.
  destruct (prefix_loops _ _ _ _ _ _ _ _ Hno Hlimit Hprefix gen_created w)
    as (rqs & it' & Hlen & Hget & Hit' & Hloops); [done|by left|].
  exists rqs. split_and!; [done|done|..].
  all: replace fuel with (length pages + S (fuel - S (length pages))) by lia.
  - unfold get_all_in_table. rewrite (proj2 (Hloops _ [] [])).
    cbn [get_all_loop]. unfold mbind at 1, M_bind at 1.
    rewrite (get_iter_resumes _ _ _ _ _ _ Hit').
    rewrite (fetch_page_fails _ _ _ _ _ _ e Hno Hrq) by done.
    cbn [remote after]. by rewrite after_after.
  - rewrite (proj1 (Hloops _ [] [])).
    cbn [iterate]. unfold mbind at 1, M_bind at 1.
    rewrite (get_iter_resumes _ _ _ _ _ _ Hit').
    rewrite (fetch_page_fails _ _ _ _ _ _ e Hno Hrq) by done.
    cbn [remote after]. by rewrite after_after.
Qed.

Lemma listing_fails_on_later_page_witness :
  ∃ msg w',
    @get_all_in_table cpython spec_params scripted 3 people "People" []
      (@start scripted [Ok (ok_response people_url first_page);
                        Ok server_error]) =
      Some (Raise (HTTPError msg), w') ∧
    length (requests (trace w')) = 2 ∧
    last (trace w') = Request <$> last (requests (trace w')).
Proof.
  destruct (@listing_fails_on_later_page cpython spec_params scripted 3
              people "People" []
              (@start scripted [Ok (ok_response people_url first_page);
                                Ok server_error])
              [[created "rec1" John]] [Ok server_error] (JStr "itr1")
              (get_request people_url [("offset", JStr "itr1")])
              (HTTPError
                 ("500 Server Error: Internal Server Error for url: " +:+
                  people_url +:+ " [Error: SERVER_ERROR]")))
    as (rqs & Hlen & _ & Hall & _).
  - apply not_elem_of_nil.
  - vm_compute. discriminate.
  - cbn. lia.
  - eapply prefix_more;
      [eexists _, _, _;
       split_and!;
         [reflexivity|reflexivity|split; [left; cbn; lia|done]|done..]
      |done|apply prefix_done].
  - reflexivity.
  - reflexivity.
  - destruct rqs as [|rq0 [|? ?]]; cbn in Hlen; [lia| |lia].
    eexists _, _. split; [exact Hall|]. split; [done|].
    cbn. reflexivity.
Defined.

(** ** Interrupted batches *)

Lemma processed_accepted `{Platform} (r : response) (data : json) :
  accepted r data → processed (Ok r) = Ok data.
Proof. apply process_response_accepted. Qed.

Lemma batch_request_interrupted `{Platform, Remote} {A B} (self : client)
  (func : A → M json) (g : B → A) (rq_of : B → request) :
  (0 <= API_LIMIT self)%Q →
  (∀ item (w : world),
     func (g item) w =
       Some (processed (session_request (remote w) (rq_of item)).1,
             after w (session_request (remote w) (rq_of item)).2
               [Request (rq_of item)])) →
  ∀ pre (w : world) datas s1 item post e,
    answers (remote w) (rq_of <$> pre) datas s1 →
    processed (session_request s1 (rq_of item)).1 = Raise e →
    _batch_request self func (g <$> (pre ++ item :: post)) w =
      Some (Raise e,
            after w (session_request s1 (rq_of item)).2
              (paced_calls (API_LIMIT self) (rq_of <$> pre) ++
               [Request (rq_of item)])).
Proof.
  intros Hlimit Hfunc pre.
  induction pre as [|x pre IH]; intros w datas s1 item post e Hans He.
  - inversion Hans; subst.
    cbn [app fmap list_fmap _batch_request]. unfold mbind, M_bind.
    by rewrite Hfunc, He.
  - cbn [fmap list_fmap] in Hans.
    inversion Hans as [|? ? r s0 data ? datas' ? Hs Hacc Hrest]; subst.
    cbn [app fmap list_fmap _batch_request]. unfold mbind at 1, M_bind at 1.
    rewrite Hfunc, Hs. cbn [fst snd].
    rewrite (processed_accepted r data Hacc).
    unfold mbind at 1, M_bind at 1. rewrite (sleep_eq _ _ Hlimit).
    cbn [remote after]. fold (after w s0 [Request (rq_of x)]).
    rewrite after_after.
    unfold mbind at 1, M_bind at 1.
    rewrite (IH _ datas' s1 item post e) by done.
    by rewrite after_after, paced_calls_cons, <-!app_assoc.
Qed.

(** X12: A batch stops at the first call that fails: the records before it
    were sent, one call each with its pause, the failing call is the last
    thing done, the records after it are never sent, and the batch raises
    the error in place of the answers already received. *)
Theorem batch_stops_at_first_failure `{Platform, Remote} (self : client)
  (table : string) (w : world) (datas : list json) (s1 : server) (e : exn) :
  (0 <= API_LIMIT self)%Q →
  (∀ (done_ : list json) (fields : json) (left_ : list json)
     (typecast : bool),
     let rq_of := insert_request self table typecast in
     answers (remote w) (rq_of <$> done_) datas s1 →
     processed (session_request s1 (rq_of fields)).1 = Raise e →
     batch_insert_in_table self table (done_ ++ fields :: left_) typecast w =
       Some (Raise e,
             after w (session_request s1 (rq_of fields)).2
               (paced_calls (API_LIMIT self) (rq_of <$> done_) ++
                [Request (rq_of fields)]))) ∧
  (∀ (done_ : list string) (record_id : string) (left_ : list string),
     let rq_of := delete_record_request self table in
     answers (remote w) (rq_of <$> done_) datas s1 →
     processed (session_request s1 (rq_of record_id)).1 = Raise e →
     batch_delete self table (JStr <$> (done_ ++ record_id :: left_)) w =
       Some (Raise e,
             after w (session_request s1 (rq_of record_id)).2
               (paced_calls (API_LIMIT self) (rq_of <$> done_) ++
                [Request (rq_of record_id)]))).
Proof.
  intros Hlimit. split.
  - intros done_ fields left_ typecast rq_of Hans He.
    unfold batch_insert_in_table.
    rewrite <-(list_fmap_id (done_ ++ fields :: left_)).
    apply (batch_request_interrupted self _ id rq_of Hlimit)
      with (datas := datas); [|done|done].
    intros item w0. apply (request_sends_once "post").
  - intros done_ record_id left_ rq_of Hans He.
    unfold batch_delete.
    apply (batch_request_interrupted self _ JStr rq_of Hlimit)
      with (datas := datas); [|done|done].
    intros item w0.
    unfold delete_in_table, record_table_url, mbind, M_bind, lift.
    apply (request_sends_once "delete").
Qed.

Lemma batch_stops_at_first_failure_witness :
  ∃ msg,
    @batch_insert_in_table cpython scripted people "People"
      [John; Marc; John] false
      (@start scripted [Ok (ok_response people_url (created "rec1" John));
                        Ok server_error;
                        Ok (ok_response people_url (created "rec3" John))]) =
      Some (Raise (HTTPError msg),
            @Build_world scripted
              [Ok (ok_response people_url (created "rec3" John))]
              [Request (post_request people_url (write_payload John false));
               Sleep (1 # 5);
               Request (post_request people_url (write_payload Marc false))]).
Proof.
  eexists.
  refine (proj1 (@batch_stops_at_first_failure cpython scripted people
            "People" _ [created "rec1" John]
            [Ok server_error;
             Ok (ok_response people_url (created "rec3" John))] _ _)
          [John] Marc [John] false _ _).
  - vm_compute. discriminate.
  - eapply answers_cons; [reflexivity| |apply answers_nil].
    split; [left; cbn; lia|done].
  - reflexivity.
Defined.

Lemma sleep_negative `{Remote} (secs : Q) (w : world) :
  (secs < 0)%Q →
  sleep secs w =
    Some (Raise (ValueError "sleep length must be non-negative"), w).
Proof.
  intros Hsecs. unfold sleep.
  destruct (Qle_bool 0 secs) eqn:Hle; [|done].
  apply Qle_bool_iff in Hle. lra.
Qed.

(** X13: With [API_LIMIT] set below zero the pause itself raises: a batch
    fails with [ValueError] after its first call, though the service has
    answered it, and so does a listing after its first page. *)
Theorem negative_pause_fails_after_first_call
  `{Platform, ParamsModule, Remote} (fuel : nat) (self : client)
  (table : string) (w : world) :
  (API_LIMIT self < 0)%Q →
  let refused := ValueError "sleep length must be non-negative" in
  (∀ fields rest typecast r s' data,
     let rq := insert_request self table typecast fields in
     session_request (remote w) rq = (Ok r, s') →
     accepted r data →
     batch_insert_in_table self table (fields :: rest) typecast w =
       Some (Raise refused, after w s' [Request rq])) ∧
  (∀ options records cursor s',
     "offset" ∉ keys options →
     serves_page self table options (remote w) JNull records cursor s' →
     ∃ rq,
       page_request self table options JNull = Ok rq ∧
       get_all_in_table (S fuel) self table options w =
         Some (Raise refused, after w s' [Request rq])).
Proof.
  intros Hlimit refused. split.
  - intros fields rest typecast r s' data rq Hs Hacc.
    unfold batch_insert_in_table. cbn [_batch_request].
    unfold mbind at 1, M_bind at 1.
    rewrite (insert_in_table_accepted _ _ _ _ _ _ _ _ Hs Hacc).
    unfold mbind at 1, M_bind at 1. by rewrite (sleep_negative _ _ Hlimit).
  - intros options records cursor s' Hno
      (rq & r & d & Hrq & Hs & Hacc & Hrecords & _).
    exists rq. split; [done|].
    unfold page_request in Hrq.
    destruct (_process_params (("offset", JNull) :: options))
      as [params|] eqn:Hparams; [|done].
    injection Hrq as <-.
    unfold get_all_in_table. cbn [get_all_loop get_iter_in_table].
    unfold mbind at 1, M_bind at 1.
    unfold fetch_page. rewrite get_page_eq by done.
    unfold _get, mbind, M_bind, lift. rewrite Hparams.
    rewrite (request_accepted "get" _ (Some params) None w r s' (JDict d)
               Hs Hacc).
    cbn [py_get]. by rewrite (sleep_negative _ _ Hlimit).
Qed.

Lemma negative_pause_fails_after_first_call_witness :
  @batch_insert_in_table cpython scripted hasty "People" [John; Marc] false
    (@start scripted [Ok (ok_response people_url (created "rec1" John));
                      Ok (ok_response people_url (created "rec2" Marc))]) =
    Some (Raise (ValueError "sleep length must be non-negative"),
          @Build_world scripted
            [Ok (ok_response people_url (created "rec2" Marc))]
            [Request (post_request people_url (write_payload John false))]).
Proof.
  refine (proj1 (@negative_pause_fails_after_first_call cpython spec_params
            scripted 0 hasty "People" _ _) John [Marc] false _ _ _ _ _).
  - vm_compute. reflexivity.
  - reflexivity.
  - split; [left; cbn; lia|done].
Defined.

(** ** More on the parameter encoder *)

Lemma mapM_result_first_Raise {A B} (f : A → result B) (l : list A) (e : exn) :
  mapM f l = Raise e →
  ∃ pre x post,
    l = pre ++ x :: post ∧ Forall (λ y, ∃ b, f y = Ok b) pre ∧ f x = Raise e.
Proof.
  induction l as [|x l IH]; cbn [mapM]; [done|].
  unfold mbind, mret, result_bind, result_ret.
  destruct (f x) as [b|e'] eqn:Hx.
  - destruct (mapM f l) as [bs|e'']; [done|]. intros [= ->].
    destruct IH as (pre & x' & post & -> & Hpre & Hx'); [done|].
    exists (x :: pre), x', post. split_and!; [done| |done].
    constructor; [by exists b|done].
  - intros [= ->]. by exists [], x, l.
Qed.

(** X14: The encoder fails exactly when some option is refused, and then with
    the error of the first one refused in the order of the names; it
    succeeds exactly when every option is accepted. *)
Theorem process_params_first_failure `{ParamsModule} (params : dict) :
  NoDup (keys params) →
  (∀ e, _process_params params = Raise e ↔
        ∃ pre item post,
          sorted_items params = pre ++ item :: post ∧
          Forall (λ x, ∃ d, encode_item x = Ok d) pre ∧
          encode_item item = Raise e) ∧
  ((∃ out, _process_params params = Ok out) ↔
   ∀ item, item ∈ params → ∃ d, encode_item item = Ok d).
Proof.
  intros Hnd. rewrite process_params_eq by done. split.
  - intros e. split.
    + intros He. apply mapM_result_first_Raise.
      destruct (mapM encode_item (sorted_items params)) as [ds|e'];
        unfold mbind, result_bind in He; [done|congruence].
    + intros (pre & item & post & -> & Hpre & Hitem).
      rewrite mapM_result_app.
      destruct (mapM_result_Ok _ _ Hpre) as (ds & -> & _).
      cbn [mapM]. by rewrite Hitem.
  - split.
    + intros [out Hout] item Hin.
      rewrite <-(sorted_items_perm params) in Hin.
      destruct (mapM encode_item (sorted_items params)) as [ds|e] eqn:Hds;
        [|done].
      clear Hout. revert ds Hds.
      induction (sorted_items params) as [|x l IH]; intros ds Hds.
      * by apply elem_of_nil in Hin.
      * cbn [mapM] in Hds. unfold mbind, mret, result_bind, result_ret in Hds.
        destruct (encode_item x) as [d|] eqn:Hx; [|done].
        destruct (mapM encode_item l) as [ds'|] eqn:Hl; [|done].
        apply elem_of_cons in Hin as [->|Hin]; [by exists d|].
        by apply (IH Hin ds').
    + intros Hvalid.
      destruct (mapM_result_Ok encode_item (sorted_items params))
        as (ds & -> & _); [|by eexists].
      apply Forall_forall. intros item Hin. apply Hvalid.
      by rewrite <-(sorted_items_perm params).
Qed.

Lemma process_params_first_failure_witness :
  @_process_params spec_params options_with_unknown_name =
    Raise (ValidationError "page_size must be at most 100").
Proof.
  refine (proj2 (proj1 (@process_params_first_failure spec_params
            options_with_unknown_name _) _) _).
  - apply (bool_decide_unpack _). vm_compute. exact I.
  - exists [], ("page_size", JInt 101), [("zzz", JInt 1)].
    split_and!; [reflexivity|constructor|reflexivity].
Defined.

Lemma NoDup_keys_dict_update (d other : dict) :
  NoDup (keys d) → NoDup (keys (dict_update d other)).
Proof.
  revert d. unfold dict_update.
  induction other as [|[k v] other IH]; intros d Hnd; [done|].
  cbn [foldl fst snd]. by apply IH, NoDup_keys_dict_set.
Qed.

Lemma process_params_loop_keys `{ParamsModule} (params items acc out : dict) :
  _process_params_loop params items acc = Ok out →
  NoDup (keys acc) → NoDup (keys out).
Proof.
  revert acc. induction items as [|[name value] items IH]; intros acc.
  - by intros [= <-].
  - cbn [_process_params_loop]. unfold mbind, result_bind.
    destruct (dict_get name params) as [v|]; [|done].
    destruct (AirtableParams_get name) as [params_class|]; [|done].
    destruct (params_class v) as [d|]; [|done].
    intros Hout Hnd. by apply (IH _ Hout), NoDup_keys_dict_update.
Qed.

Lemma dict_get_dict_set_ne (k k' : string) (v : json) (d : dict) :
  k ≠ k' → dict_get k (dict_set k' v d) = dict_get k d.
Proof.
  intros Hne. induction d as [|[k0 v0] d IH]; cbn [dict_set dict_get].
  - by rewrite decide_False.
  - destruct (decide (k' = k0)) as [->|]; cbn [dict_get].
    + by rewrite !decide_False.
    + by rewrite IH.
Qed.

Lemma dict_get_foldl_other (k : string) (acc l : dict) :
  k ∉ keys l →
  dict_get k (foldl (λ acc kv, dict_set kv.1 kv.2 acc) acc l) = dict_get k acc.
Proof.
  revert acc. unfold keys.
  induction l as [|[k' v'] l IH]; intros acc Hnin; [done|].
  cbn [fmap list_fmap fst] in Hnin. apply not_elem_of_cons in Hnin as [Hne ?].
  cbn [foldl fst snd]. rewrite IH by done. by apply dict_get_dict_set_ne.
Qed.

Lemma dict_get_foldl_last (k : string) (v : json) (acc l1 l2 : dict) :
  k ∉ keys l2 →
  dict_get k (foldl (λ acc kv, dict_set kv.1 kv.2 acc) acc
                (l1 ++ (k, v) :: l2)) = Some v.
Proof.
  intros Hnin. rewrite foldl_app. cbn [foldl fst snd].
  rewrite dict_get_foldl_other by done. apply dict_get_dict_set.
Qed.

Lemma mapM_result_app_Ok {A B} (f : A → result B) (l1 l2 : list A) bs :
  mapM f (l1 ++ l2) = Ok bs →
  ∃ bs1 bs2, mapM f l1 = Ok bs1 ∧ mapM f l2 = Ok bs2 ∧ bs = bs1 ++ bs2.
Proof.
  rewrite mapM_result_app.
  destruct (mapM f l1) as [bs1|] eqn:H1; [|done].
  destruct (mapM f l2) as [bs2|] eqn:H2; [|done].
  intros [= <-]. by exists bs1, bs2.
Qed.

Lemma mapM_result_elem {A B} (f : A → result B) (l : list A) bs b :
  mapM f l = Ok bs → b ∈ bs → ∃ x, x ∈ l ∧ f x = Ok b.
Proof.
  revert bs. induction l as [|x l IH]; intros bs; cbn [mapM].
  - intros [= <-] Hin. by apply elem_of_nil in Hin.
  - unfold mbind, mret, result_bind, result_ret.
    destruct (f x) as [b0|] eqn:Hx; [|done].
    destruct (mapM f l) as [bs0|] eqn:Hl; [|done].
    intros [= <-] [->|Hin]%elem_of_cons.
    + exists x. split; [by apply elem_of_cons; left|done].
    + destruct (IH bs0 eq_refl Hin) as (x' & Hx' & Hb).
      exists x'. split; [by apply elem_of_cons; right|done].
Qed.

Lemma elem_split_last_key (k : string) (v : json) (d : dict) :
  NoDup (keys d) → (k, v) ∈ d →
  ∃ d1 d2, d = d1 ++ (k, v) :: d2 ∧ k ∉ keys d2.
Proof.
  intros Hnd Hin. apply list_elem_of_split in Hin as (d1 & d2 & ->).
  exists d1, d2. split; [done|].
  unfold keys in *. rewrite fmap_app in Hnd.
  apply NoDup_app in Hnd as (_ & _ & Hnd2).
  cbn [fmap list_fmap fst] in Hnd2. by apply NoDup_cons in Hnd2 as [? _].
Qed.

(** X15: Whatever the options and their classes, the wire parameters the
    encoder returns hold each key once; where two options give the same
    wire key, the value of the option later in the order of the names is
    the one kept. *)
Theorem process_params_keys_unique `{ParamsModule} (params out : dict) :
  _process_params params = Ok out →
  NoDup (keys out) ∧
  ∀ items1 item items2 d k v,
    NoDup (keys params) →
    sorted_items params = items1 ++ item :: items2 →
    encode_item item = Ok d →
    NoDup (keys d) →
    (k, v) ∈ d →
    (∀ item' d', item' ∈ items2 → encode_item item' = Ok d' → k ∉ keys d') →
    dict_get k out = Some v.
Proof.
  intros Hout. split.
  - apply (process_params_loop_keys _ _ _ _ Hout), NoDup_nil_2.
  - intros items1 item items2 d k v Hnd Hsorted Hitem Hd Hkv Hlater.
    rewrite process_params_eq, Hsorted in Hout by done.
    destruct (mapM encode_item (items1 ++ item :: items2)) as [ds|] eqn:Hds;
      [|done].
    injection Hout as <-.
    apply mapM_result_app_Ok in Hds as (ds1 & ds2' & _ & Hds2 & ->).
    cbn [mapM] in Hds2. rewrite Hitem in Hds2.
    unfold mbind, mret, result_bind, result_ret in Hds2.
    destruct (mapM encode_item items2) as [ds2|] eqn:Hitems2; [|done].
    injection Hds2 as <-.
    destruct (elem_split_last_key k v d Hd Hkv) as (d1 & d2 & -> & Hd2).
    rewrite foldl_dict_update, concat_app. cbn [concat].
    rewrite <-!app_assoc, app_assoc. cbn [app].
    apply dict_get_foldl_last. unfold keys. rewrite fmap_app.
    intros [Hin|Hin]%elem_of_app; [done|].
    apply list_elem_of_fmap in Hin as ([k' v'] & -> & Hin).
    apply elem_of_concat in Hin as (d' & Hin & Hd').
    destruct (mapM_result_elem _ _ _ _ Hitems2 Hd') as (item' & Hitem' & Henc).
    apply (Hlater item' d' Hitem' Henc).
    apply (list_elem_of_fmap_2 fst _ _ Hin).
Qed.

Lemma process_params_keys_unique_witness :
  ∃ out,
    @_process_params spec_params example_options = Ok out ∧
    NoDup (keys out) ∧
    dict_get "pageSize" out = Some (JInt 100).
Proof.
  eexists. split; [reflexivity|].
  destruct (@process_params_keys_unique spec_params example_options _
              eq_refl) as [Hnd Hlast].
  split; [exact Hnd|].
  refine (Hlast [("fields", JStr "Name")] ("page_size", JInt 100)
            [("sort", JList [JStr "A"; JStr "-B"])] _ "pageSize" (JInt 100)
            _ eq_refl eq_refl _ _ _).
  - apply (bool_decide_unpack _). vm_compute. exact I.
  - apply (bool_decide_unpack _). vm_compute. exact I.
  - apply elem_of_cons. by left.
  - intros item' d' Hin Henc.
    apply elem_of_cons in Hin as [->|Hin]; [|by apply elem_of_nil in Hin].
    injection Henc as <-.
    apply (bool_decide_unpack _). vm_compute. exact I.
Defined.

(** ** The iterator and the list of all records *)

Lemma iterate_get_all `{Platform, ParamsModule, Remote} self table options
  fuel :
  ∀ it acc1 (w : world) pages w',
    iterate fuel self table options it acc1 w = Some (Ok pages, w') →
    ∃ new,
      pages = acc1 ++ new ∧
      ∀ acc2 ls,
        (mapM py_iter new : result (list (list json))) = Ok ls →
        get_all_loop fuel self table options it acc2 w =
          Some (Ok (acc2 ++ concat ls), w').
Proof.
  induction fuel as [|fuel IH]; intros it acc1 w pages w'; [done|].
  cbn [iterate get_all_loop]. unfold mbind at 1, M_bind at 1.
  destruct (get_iter_in_table self table options it w)
    as [[[[[page|] it']|e] w1]|] eqn:Hstep; [| |done..]; cbn [fst snd].
  - intros Hiter. destruct (IH _ _ _ _ _ Hiter) as (new & -> & Hall).
    exists (page :: new). split; [by rewrite <-app_assoc|].
    intros acc2 ls. cbn [mapM]. unfold mbind at 1, mret, result_bind at 1.
    destruct (py_iter page) as [items|] eqn:Hpage; [|done].
    unfold mbind at 1, result_bind at 1, result_ret.
    destruct (mapM py_iter new) as [ls'|] eqn:Hnew; [|done].
    intros [= <-]. unfold mbind at 1, M_bind at 1. rewrite Hstep.
    cbn [fst snd]. unfold mbind, M_bind, lift. rewrite Hpage.
    rewrite (Hall (acc2 ++ items) ls') by done.
    cbn [concat]. by rewrite <-app_assoc.
  - intros [= <- <-]. exists []. split; [by rewrite app_nil_r|].
    intros acc2 ls [= <-]. unfold mbind, M_bind. rewrite Hstep.
    cbn [concat fst]. by rewrite app_nil_r.
Qed.

(** X16: For any service: when iterating to the end succeeds, and each page
    yielded can itself be iterated (it is a list, as the service should
    send), [get_all_in_table] succeeds too, returns the pages' items put
    end to end, and leaves the same requests and pauses behind. *)
Theorem get_all_concatenates_pages `{Platform, ParamsModule, Remote}
  (fuel : nat) (self : client) (table : string) (options : dict) (w : world)
  (pages : list json) (w' : world) (ls : list (list json)) :
  iterate fuel self table options gen_created [] w = Some (Ok pages, w') →
  (mapM py_iter pages : result (list (list json))) = Ok ls →
  get_all_in_table fuel self table options w = Some (Ok (concat ls), w').
Proof.
  intros Hiter Hls.
  destruct (iterate_get_all _ _ _ _ _ _ _ _ _ Hiter) as (new & Hnew & Hall).
  cbn [app] in Hnew. subst new. by apply (Hall []).
Qed.

Lemma get_all_concatenates_pages_witness :
  ∃ w',
    @get_all_in_table cpython spec_params (paging people_pages) 4 people
      "People" [] (@start (paging people_pages) ()) =
      Some (Ok [created "rec1" John; created "rec2" Marc; created "rec3" John],
            w').
Proof.
  eexists.
  refine (@get_all_concatenates_pages cpython spec_params
            (paging people_pages) 4 people "People" []
            (@start (paging people_pages) ()) _ _
            [[created "rec1" John; created "rec2" Marc];
             [created "rec3" John]; []] _ _).
  - vm_compute. reflexivity.
  - reflexivity.
Defined.

Lemma fetch_page_events `{Platform, ParamsModule, Remote} self table options
  offset (w : world) res w' :
  fetch_page self table options offset w = Some (res, w') →
  (trace w' = trace w ∧ ∃ e, res = Raise e) ∨
  (∃ rq, trace w' = trace w ++ [Request rq] ∧ ∃ e, res = Raise e) ∨
  (∃ rq page data,
     trace w' = trace w ++ [Request rq; Sleep (API_LIMIT self)] ∧
     res = Ok (Some page, gen_suspended data)).
Proof.
  unfold fetch_page, _get_page, raise, lift.
  destruct (bool_decide ("offset" ∈ keys options)).
  { unfold mbind, M_bind. intros [= <- <-]. left. by eauto. }
  unfold _get, mbind, M_bind, lift.
  destruct (_process_params (("offset", offset) :: options)) as [params|e].
  2: { intros [= <- <-]. left. by eauto. }
  rewrite (request_sends_once "get").
  destruct (processed _) as [data|e].
  2: { intros [= <- <-]. right; left. eexists. split; [done|by eauto]. }
  destruct (py_get data "records" (JList [])) as [records|e].
  2: { intros [= <- <-]. right; left. eexists. split; [done|by eauto]. }
  unfold sleep. cbn [remote trace after].
  destruct (Qle_bool 0 (API_LIMIT self)).
  - intros [= <- <-]. right; right. eexists _, _, _.
    split; [|done]. cbn [trace]. by rewrite <-app_assoc.
  - intros [= <- <-]. right; left. eexists. split; [done|by eauto].
Qed.

(** X17: The iterator is lazy and single-use: one turn of it sends one request
    at most, a turn that yields a page has sent exactly one and paused
    once after it, the turn that ends the iteration sends nothing, and a
    finished iterator stays finished without sending anything more. *)
Theorem one_turn_one_request `{Platform, ParamsModule, Remote}
  (self : client) (table : string) (options : dict) (it : generator)
  (w : world) (res : result (option json * generator)) (w' : world) :
  get_iter_in_table self table options it w = Some (res, w') →
  ∃ evs,
    trace w' = trace w ++ evs ∧
    length (requests evs) ≤ 1 ∧
    (∀ page it', res = Ok (Some page, it') →
       ∃ rq, evs = [Request rq; Sleep (API_LIMIT self)]) ∧
    (∀ it', res = Ok (None, it') → evs = [] ∧ it' = gen_finished) ∧
    (it = gen_finished → res = Ok (None, gen_finished) ∧ evs = []).
Proof.
  assert (Hfetch : ∀ offset,
    fetch_page self table options offset w = Some (res, w') →
    ∃ evs,
      trace w' = trace w ++ evs ∧
      length (requests evs) ≤ 1 ∧
      (∀ page it', res = Ok (Some page, it') →
         ∃ rq, evs = [Request rq; Sleep (API_LIMIT self)]) ∧
      (∀ it', res = Ok (None, it') → evs = [] ∧ it' = gen_finished)).
  { intros offset Hres.
    destruct (fetch_page_events _ _ _ _ _ _ _ Hres)
      as [[Htr [e ->]]|[(rq & Htr & e & ->)|(rq & page & data & Htr & ->)]].
    - exists []. rewrite app_nil_r. split_and!; [done|cbn; lia|done|done].
    - exists [Request rq]. split_and!; [done|cbn; lia|done|done].
    - exists [Request rq; Sleep (API_LIMIT self)].
      split_and!; [done|cbn; lia|by eauto|done]. }
  assert (Hstop : res = Ok (None, gen_finished) → w' = w →
    ∃ evs,
      trace w' = trace w ++ evs ∧
      length (requests evs) ≤ 1 ∧
      (∀ page it', res = Ok (Some page, it') →
         ∃ rq, evs = [Request rq; Sleep (API_LIMIT self)]) ∧
      (∀ it', res = Ok (None, it') → evs = [] ∧ it' = gen_finished) ∧
      evs = []).
  { intros -> ->. exists []. rewrite app_nil_r.
    split_and!; [done|cbn; lia|done| |done]. by intros it' [= <-]. }
  destruct it as [|data|]; cbn [get_iter_in_table].
  - intros Hres. destruct (Hfetch _ Hres) as (evs & ? & ? & ? & ?).
    exists evs. by split_and!.
  - unfold mbind, M_bind, lift.
    destruct (py_get data "offset" JNull) as [offset|e].
    + destruct (py_bool offset).
      * intros Hres. destruct (Hfetch _ Hres) as (evs & ? & ? & ? & ?).
        exists evs. by split_and!.
      * intros [= <- <-].
        destruct (Hstop eq_refl eq_refl) as (evs & ? & ? & ? & ? & ?).
        exists evs. by split_and!.
    + intros [= <- <-]. exists []. rewrite app_nil_r.
      split_and!; [done|cbn; lia|done|done|done].
  - intros [= <- <-].
    destruct (Hstop eq_refl eq_refl) as (evs & ? & ? & ? & ? & ?).
    exists evs. by split_and!.
Qed.

Lemma one_turn_one_request_witness :
  ∃ evs,
    length (requests evs) ≤ 1 ∧
    ∃ rq, evs = [Request rq; Sleep (1 # 5)].
Proof.
  destruct (@one_turn_one_request cpython spec_params (paging people_pages)
              people "People" [] gen_created
              (@start (paging people_pages) ()) _ _ eq_refl)
    as (evs & _ & Hone & Hpage & _).
  exists evs. split; [exact Hone|]. exact (Hpage _ _ eq_refl).
Defined.

(** X18: A listing answer that is JSON but not an object (a list, a string, a
    number, [null]) is not a page: reading its records raises
    [AttributeError], after the request and with no pause. *)
Theorem listing_answer_not_an_object `{Platform, ParamsModule, Remote}
  (fuel : nat) (self : client) (table : string) (options : dict) (w : world)
  (rq : request) (r : response) (s' : server) (data : json) :
  "offset" ∉ keys options →
  page_request self table options JNull = Ok rq →
  session_request (remote w) rq = (Ok r, s') →
  accepted r data →
  (∀ d, data ≠ JDict d) →
  get_all_in_table (S fuel) self table options w =
    Some (Raise (AttributeError "object" "get"), after w s' [Request rq]).
Proof.
  intros Hno Hrq Hs Hacc Hdata. unfold page_request in Hrq.
  destruct (_process_params (("offset", JNull) :: options))
    as [params|] eqn:Hparams; [|done].
  injection Hrq as <-.
  unfold get_all_in_table. cbn [get_all_loop get_iter_in_table].
  unfold fetch_page. rewrite get_page_eq by done.
  unfold _get, mbind, M_bind, lift. rewrite Hparams.
  rewrite (request_accepted "get" _ (Some params) None w r s' data Hs Hacc).
  destruct data as [| | | | | |d]; try done. by destruct (Hdata d).
Qed.

Lemma listing_answer_not_an_object_witness :
  @get_all_in_table cpython spec_params scripted 1 people "People" []
    (@start scripted [Ok (ok_response people_url (JList []))]) =
    Some (Raise (AttributeError "object" "get"),
          @Build_world scripted []
            [Request (get_request people_url [("offset", JNull)])]).
Proof.
  refine (@listing_answer_not_an_object cpython spec_params scripted 0 people
            "People" []
            (@start scripted [Ok (ok_response people_url (JList []))])
            (get_request people_url [("offset", JNull)])
            (ok_response people_url (JList [])) [] (JList [])
            _ eq_refl eq_refl _ _).
  - apply not_elem_of_nil.
  - split; [left; cbn; lia|done].
  - done.
Defined.
